(** * demo.py: the validation harness of the hand-built module library

    A shallow embedding of [src/demo.py].  The script is orchestration code:
    it builds models, runs training loops, toggles the training mode of a
    model and the gradient tracking of the reference framework, and catches
    [AssertionError] in its negative tests.  Python statements become
    computations in a state-and-exception monad over a [world] that holds
    the interpreter-visible globals (the gradient flag, the console) and the
    objects owned by the libraries the script imports. *)

From Stdlib Require Import String DecimalString ZArith QArith Lia Bool Arith List.
Import ListNotations.
Open Scope string_scope.
Open Scope Z_scope.
Open Scope list_scope.

Set Implicit Arguments.

(** ** Exceptions and the effect monad *)

(** The exception classes the script can observe.  Only [AssertionError] is
    ever caught (lines 217, 249, 265); the others stand for "errors of any
    other type". *)
Inductive exn : Type :=
| AssertionError (msg : string)
| IndexError (msg : string)
| RuntimeError (msg : string)
| TypeError (msg : string)
| AttributeError (msg : string)
| OSError (msg : string).

Definition is_AssertionError (e : exn) : bool :=
  match e with AssertionError _ => true | _ => false end.

(** How a Python call ends: with a value, or with a raised exception. *)
Inductive outcome (A : Type) : Type :=
| Return (a : A)
| Raise (e : exn).
Arguments Return {A} a.
Arguments Raise {A} e.

(** A statement runs in a state [S]; the state it leaves behind is kept
    also when it raises, since Python does not roll mutations back. *)
Definition M (S A : Type) : Type := S -> outcome A * S.

Definition ret {S A} (a : A) : M S A := fun s => (Return a, s).

Definition raise {S A} (e : exn) : M S A := fun s => (Raise e, s).

Definition bind {S A B} (c : M S A) (k : A -> M S B) : M S B :=
  fun s => match c s with
           | (Return a, s') => k a s'
           | (Raise e, s') => (Raise e, s')
           end.

(** A pure call that may raise, run as a statement. *)
Definition lift {S A} (o : outcome A) : M S A := fun s => (o, s).

Declare Scope py_scope.
Delimit Scope py_scope with py.
Notation "x <- c ;; k" := (bind c (fun x => k))
  (at level 61, c at next level, right associativity) : py_scope.
Notation "' pat <- c ;; k" := (bind c (fun x => match x with pat => k end))
  (at level 61, pat pattern, c at next level, right associativity) : py_scope.
Notation "c ;; k" := (bind c (fun _ => k))
  (at level 61, right associativity) : py_scope.
Open Scope py_scope.

(** [try: body  except AssertionError as error: handler(error)].  The
    handler receives [str(error)], which is all the script uses. *)
Definition try_except_AssertionError {S A}
    (body : M S A) (handler : string -> M S A) : M S A :=
  fun s => match body s with
           | (Raise (AssertionError msg), s') => handler msg s'
           | r => r
           end.

(** [range(n)] for a Python integer [n]: empty when [n <= 0]. *)
Definition range (n : Z) : list Z := map Z.of_nat (seq 0 (Z.to_nat n)).

(** [for e in l: body], where [L] holds the local variables the body
    rebinds or mutates. *)
Fixpoint for_in {S L} (l : list Z) (body : Z -> L -> M S L) (locals : L)
  : M S L :=
  match l with
  | [] => ret locals
  | e :: l' => locals' <- body e locals ;; for_in l' body locals'
  end.

(** ** The world *)

(** [grad_enabled] is the flag behind [torch.set_grad_enabled]; [stdout]
    is the console, one entry per [print]; [heap] holds every object owned
    by the imported libraries. *)
Record world (H : Type) : Type := mkWorld {
  grad_enabled : bool;
  stdout : list string;
  heap : H
}.
Arguments mkWorld {H} _ _ _.

Definition print {H} (s : string) : M (world H) unit :=
  fun w => (Return tt, mkWorld (grad_enabled w) (stdout w ++ [s]) (heap w)).

Definition set_grad_enabled {H} (b : bool) : M (world H) unit :=
  fun w => (Return tt, mkWorld b (stdout w) (heap w)).

(** The world once [s] has been printed. *)
Definition with_line {H} (w : world H) (s : string) : world H :=
  mkWorld (grad_enabled w) (stdout w ++ [s]) (heap w).

(** The world once a test has printed its two opening lines. *)
Definition announced {H} (w : world H) (rule title : string) : world H :=
  with_line (with_line w rule) title.

(** ** Tensors *)

(** The two tensor operations of [load_mock_test_data]: [t[:,1]] and
    [t.view(-1,1)].  They are pure and may raise. *)
Class Slicing (tensor : Type) : Type := {
  getitem_col1 : tensor -> outcome tensor;
  view_col : tensor -> outcome tensor
}.

(** Tensors of rank one and two with elements of type [A]; tensors of
    higher rank are not modelled.  A matrix keeps its number of columns,
    so that the shape [(0, w)] is distinguished. *)
Module Torch.
Section Tensors.
Variable A : Type.

Inductive tensor : Type :=
| Vec (v : list A)
| Mat (ncols : nat) (rows : list (list A)).

Definition wf (t : tensor) : Prop :=
  match t with
  | Vec _ => True
  | Mat w rows => Forall (fun r => List.length r = w) rows
  end.

Definition shape (t : tensor) : list nat :=
  match t with
  | Vec v => [List.length v]
  | Mat w rows => [List.length rows; w]
  end.

(** Entry [j] of every row, when every row has one. *)
Fixpoint column (j : nat) (rows : list (list A)) : option (list A) :=
  match rows with
  | [] => Some []
  | r :: rows' =>
      match nth_error r j, column j rows' with
      | Some x, Some c => Some (x :: c)
      | _, _ => None
      end
  end.

Definition getitem_col1 (t : tensor) : outcome tensor :=
  match t with
  | Vec _ => Raise (IndexError "too many indices for tensor of dimension 1")
  | Mat w rows =>
      if (w <=? 1)%nat
      then Raise (IndexError "index 1 is out of bounds for dimension 1")
      else match column 1 rows with
           | Some c => Return (Vec c)
           | None => Raise (IndexError "index 1 is out of bounds for dimension 1")
           end
  end.

Definition as_column (v : list A) : tensor := Mat 1 (map (fun x => [x]) v).

Definition view_col (t : tensor) : outcome tensor :=
  match t with
  | Vec v => Return (as_column v)
  | Mat _ rows => Return (as_column (concat rows))
  end.

Definition dim (t : tensor) : Z := Z.of_nat (List.length (shape t)).

Definition flatten (t : tensor) : outcome tensor :=
  match t with
  | Vec v => Return (Vec v)
  | Mat _ rows => Return (Vec (concat rows))
  end.

#[global] Instance slicing : Slicing tensor :=
  Build_Slicing getitem_col1 view_col.
End Tensors.
Arguments Vec {A} v.
Arguments Mat {A} ncols rows.
End Torch.

(** ** [load_mock_test_data] (lines 10-15) *)

(** [load_data_p2] comes from the helpers that the script imports; it is a
    parameter here. *)
Definition load_mock_test_data {S tensor} `{Slicing tensor}
    (load_data_p2 : M S (tensor * tensor * tensor * tensor))
  : M S (tensor * tensor * tensor * tensor) :=
  '(train_input, train_target, test_input, test_target) <- load_data_p2 ;;
  col <- lift (getitem_col1 train_target) ;;
  train_target <- lift (view_col col) ;;
  col <- lift (getitem_col1 test_target) ;;
  test_target <- lift (view_col col) ;;
  ret (train_input, train_target, test_input, test_target).

(** ** The libraries behind the script *)

(** Python's [str] of an integer. *)
Definition str_of_Z (z : Z) : string := NilZero.string_of_int (Z.to_int z).

Definition nl : string := String (Ascii.ascii_of_nat 10) EmptyString.

Definition rule : string :=
  (nl ++ "---------------------------------------------------------------------------")%string.

(** Everything the script calls and does not define: the hand-built
    library ([Module], [modules], [optimizers], [helpers]) and the reference
    framework ([torch]).  Objects are handles into the [heap]; a method call
    is a statement on the world.  The attribute looked up by Python at run
    time ([model(input)], [optimizer.zero_grad()], ...) is one operation
    here whichever library the object comes from. *)
Class Framework : Type := {
  heap_t : Type;
  tensor : Type;
  module : Type;
  criterion : Type;
  optimizer : Type;
  parameters_t : Type;
  tensor_slicing :: Slicing tensor;

  (** helpers *)
  load_data_p2 : M (world heap_t) (tensor * tensor * tensor * tensor);

  (** modules: constructors *)
  Linear : string -> Z -> Z -> M (world heap_t) module;
  ReLU : option string -> M (world heap_t) module;
  Tanh : option string -> M (world heap_t) module;
  Sigmoid : option string -> M (world heap_t) module;
  Sequential : list module -> M (world heap_t) module;
  MSELoss : M (world heap_t) criterion;
  BCELoss : M (world heap_t) criterion;
  BCEWithLogitsLoss : M (world heap_t) criterion;

  (** modules: methods *)
  call_module : module -> tensor -> M (world heap_t) tensor;
  module_backward : module -> option tensor -> M (world heap_t) unit;
  module_eval : module -> M (world heap_t) unit;
  module_train : module -> M (world heap_t) unit;
  call_criterion : criterion -> tensor -> tensor -> M (world heap_t) tensor;
  criterion_backward : criterion -> M (world heap_t) tensor;

  (** optimizers: [SGD(model, lr)], [zero_grad()], [step(loss)] *)
  SGD : module -> Q -> M (world heap_t) optimizer;
  zero_grad : optimizer -> M (world heap_t) unit;
  step : optimizer -> tensor -> M (world heap_t) unit;

  (** torch: [model.parameters()], [torch.optim.SGD(params, lr)],
      [loss.backward()], [optimizer.step()] *)
  parameters : module -> M (world heap_t) parameters_t;
  torch_optim_SGD : parameters_t -> Q -> M (world heap_t) optimizer;
  tensor_backward : tensor -> M (world heap_t) unit;
  step0 : optimizer -> M (world heap_t) unit;

  (** torch: pure tensor functions *)
  dim : tensor -> Z;
  flatten : tensor -> outcome tensor;
  (** [torch.ge(t, 0.5)] *)
  ge_half : tensor -> outcome tensor;
  (** [t.type(torch.ByteTensor)] *)
  type_byte : tensor -> outcome tensor;
  (** [a == b] *)
  tensor_eq : tensor -> tensor -> outcome tensor;
  (** [torch.where(c, torch.Tensor([1]), torch.Tensor([0]))] *)
  where_one_zero : tensor -> outcome tensor;
  (** [t.sum()] *)
  tensor_sum : tensor -> outcome tensor;
  (** [len(t)] *)
  len : tensor -> outcome Z;
  (** [t / n] *)
  tensor_div : tensor -> Z -> outcome tensor;
  (** [str(round(t.item(), 5))] *)
  str_round5_item : tensor -> outcome string
}.

Section Demo.
Context {F : Framework}.

Local Abbreviation W := (world heap_t).
Local Abbreviation dataset := (tensor * tensor * tensor * tensor)%type.

(** ["e = {}, loss = {}".format(e, round(loss.item(), 5))] *)
Definition format_loss (e : Z) (loss : tensor) : M W string :=
  r <- lift (str_round5_item loss) ;;
  ret ("e = " ++ str_of_Z e ++ ", loss = " ++ r)%string.

(** [if grad_output.dim() == 1: grad_output = grad_output.view(-1,1)] *)
Definition as_2d (grad_output : tensor) : M W tensor :=
  if dim grad_output =? 1 then lift (view_col grad_output)
  else ret grad_output.

(** [if e % period == 0: print(...)] *)
Definition log_loss (period e : Z) (loss : tensor) : M W unit :=
  if e mod period =? 0 then s <- format_loss e loss ;; print s
  else ret tt.

(** *** [train_custom_and_torch] (lines 19-47) *)

(** [from torch import nn] and [del nn] bind and unbind a name that the
    function does not use; they are left out. *)

(** The body of the loop of lines 25-33, on the hand-built library. *)
Definition train_epoch
    (model : module) (criterion0 : criterion) (input target : tensor)
    (optimizer0 : optimizer) (e : Z) (_ : unit) : M W unit :=
  zero_grad optimizer0 ;;
  output <- call_module model input ;;
  loss <- call_criterion criterion0 output target ;;
  grad_output <- criterion_backward criterion0 ;;
  grad_output <- as_2d grad_output ;;
  log_loss 100 e loss ;;
  module_backward model (Some grad_output) ;;
  step optimizer0 loss.

(** The body of the loop of lines 38-44, on the reference framework. *)
Definition train_epoch_torch
    (model_torch : module) (criterion_torch : criterion)
    (input target : tensor) (optimizer_torch : optimizer)
    (e : Z) (_ : unit) : M W unit :=
  zero_grad optimizer_torch ;;
  output_torch <- call_module model_torch input ;;
  loss_torch <- call_criterion criterion_torch output_torch target ;;
  log_loss 100 e loss_torch ;;
  tensor_backward loss_torch ;;
  step0 optimizer_torch.

Definition train_custom_and_torch
    (model : module) (criterion0 : criterion)
    (model_torch : module) (criterion_torch : criterion)
    (nb_epochs : Z) (lr : Q) : M W unit :=
  '(input, target, _, _) <- load_mock_test_data load_data_p2 ;;
  print (nl ++ "Working with custom DL")%string ;;
  optimizer0 <- SGD model lr ;;
  for_in (range nb_epochs)
    (train_epoch model criterion0 input target optimizer0) tt ;;
  set_grad_enabled true ;;
  print (nl ++ "Working with PyTorch")%string ;;
  ps <- parameters model_torch ;;
  optimizer_torch <- torch_optim_SGD ps lr ;;
  for_in (range nb_epochs)
    (train_epoch_torch model_torch criterion_torch input target
       optimizer_torch) tt ;;
  set_grad_enabled false ;;
  ret tt.

(** *** The accuracy testers (lines 52-68) *)

(** Line 57 and line 66: the share of predictions equal to the target. *)
Definition accuracy (output_to_prediction test_target test_input : tensor)
  : M W tensor :=
  t <- lift (flatten test_target) ;;
  t <- lift (type_byte t) ;;
  c <- lift (tensor_eq output_to_prediction t) ;;
  ones <- lift (where_one_zero c) ;;
  total <- lift (tensor_sum ones) ;;
  n <- lift (len test_input) ;;
  lift (tensor_div total n).

Definition test_model_bce (model : module) (test_input test_target : tensor)
  : M W tensor :=
  module_eval model ;;
  test_output <- call_module model test_input ;;
  p <- lift (ge_half test_output) ;;
  output_to_prediction <- lift (flatten p) ;;
  test_accuracy <- accuracy output_to_prediction test_target test_input ;;
  module_train model ;;
  ret test_accuracy.

Definition test_model_bceWithLogits
    (model : module) (test_input test_target : tensor) : M W tensor :=
  module_eval model ;;
  test_output <- call_module model test_input ;;
  sigmoid <- Sigmoid None ;;
  probs <- call_module sigmoid test_output ;;
  p <- lift (ge_half probs) ;;
  output_to_prediction <- lift (flatten p) ;;
  test_accuracy <- accuracy output_to_prediction test_target test_input ;;
  module_train model ;;
  ret test_accuracy.

(** *** [train_and_test_model] (lines 111-134) *)

(** The three lists the loops append to, in the order the source
    declares them: [loss_history], [test_acc_history],
    [train_acc_history]. *)
Definition histories : Type := (list tensor * list tensor * list tensor)%type.

(** The body of the loop of lines 120-133. *)
Definition train_and_test_epoch
    (model : module) (criterion0 : criterion)
    (test_model_fn : module -> tensor -> tensor -> M W tensor)
    (data : dataset) (optimizer0 : optimizer)
    (e : Z) (h : histories) : M W histories :=
  let '(input, target, test_input, test_target) := data in
  let '(loss_history, test_acc_history, train_acc_history) := h in
  zero_grad optimizer0 ;;
  output <- call_module model input ;;
  loss <- call_criterion criterion0 output target ;;
  let loss_history := loss_history ++ [loss] in
  test_acc <- test_model_fn model test_input test_target ;;
  let test_acc_history := test_acc_history ++ [test_acc] in
  train_acc <- test_model_fn model input target ;;
  let train_acc_history := train_acc_history ++ [train_acc] in
  grad_output <- criterion_backward criterion0 ;;
  grad_output <- as_2d grad_output ;;
  log_loss 50 e loss ;;
  module_backward model (Some grad_output) ;;
  step optimizer0 loss ;;
  ret (loss_history, test_acc_history, train_acc_history).

Definition train_and_test_model
    (model : module) (criterion0 : criterion)
    (test_model_fn : module -> tensor -> tensor -> M W tensor)
    (data : dataset) (nb_epochs : Z) (lr : Q)
  : M W (list tensor * list tensor * list tensor) :=
  set_grad_enabled false ;;
  print (nl ++ "Working with custom DL")%string ;;
  optimizer0 <- SGD model lr ;;
  '(loss_history, test_acc_history, train_acc_history) <-
    for_in (range nb_epochs)
      (train_and_test_epoch model criterion0 test_model_fn data optimizer0)
      ([], [], []) ;;
  ret (loss_history, train_acc_history, test_acc_history).

(** *** [train_and_test_model_torch] (lines 136-160) *)

(** The body of the loop of lines 146-157. *)
Definition train_and_test_epoch_torch
    (model : module) (criterion0 : criterion)
    (test_model_fn : module -> tensor -> tensor -> M W tensor)
    (data : dataset) (optimizer0 : optimizer)
    (e : Z) (h : histories) : M W histories :=
  let '(input, target, test_input, test_target) := data in
  let '(loss_history, test_acc_history, train_acc_history) := h in
  zero_grad optimizer0 ;;
  output <- call_module model input ;;
  flat <- lift (flatten output) ;;
  loss <- call_criterion criterion0 flat target ;;
  let loss_history := loss_history ++ [loss] in
  test_acc <- test_model_fn model test_input test_target ;;
  let test_acc_history := test_acc_history ++ [test_acc] in
  train_acc <- test_model_fn model input target ;;
  let train_acc_history := train_acc_history ++ [train_acc] in
  log_loss 50 e loss ;;
  tensor_backward loss ;;
  step0 optimizer0 ;;
  ret (loss_history, test_acc_history, train_acc_history).

Definition train_and_test_model_torch
    (model : module) (criterion0 : criterion)
    (test_model_fn : module -> tensor -> tensor -> M W tensor)
    (data : dataset) (nb_epochs : Z) (lr : Q)
  : M W (list tensor * list tensor * list tensor) :=
  set_grad_enabled true ;;
  print (nl ++ "Working with PyTorch")%string ;;
  ps <- parameters model ;;
  optimizer0 <- torch_optim_SGD ps lr ;;
  '(loss_history, test_acc_history, train_acc_history) <-
    for_in (range nb_epochs)
      (train_and_test_epoch_torch model criterion0 test_model_fn data
         optimizer0)
      ([], [], []) ;;
  set_grad_enabled false ;;
  ret (loss_history, train_acc_history, test_acc_history).

(** *** The negative tests (lines 208-219, 242-266) *)

Definition uncorrect : string :=
  "Uncorrect behavior, error should have been thrown.".

(** Lines 212-215: the arguments are built left to right, then
    [Sequential] is called. *)
Definition two_unnamed_sigmoid : M W module :=
  fc1 <- Linear "fc1" 2 6 ;; relu <- ReLU None ;;
  fc2 <- Linear "fc2" 6 2 ;; sigmoid1 <- Sigmoid None ;;
  fc3 <- Linear "fc3" 2 1 ;; sigmoid2 <- Sigmoid None ;;
  Sequential [fc1; relu; fc2; sigmoid1; fc3; sigmoid2].

Definition test_assertion_error_with_multiple_unnamed_sigmoid : M W unit :=
  print rule ;;
  print "Testing assertion error with multiple unnamed parameterless modules." ;;
  try_except_AssertionError
    (model <- two_unnamed_sigmoid ;; print uncorrect)
    (fun error => print error) ;;
  ret tt.

Definition test_assertion_error_when_calling_backward_first : M W unit :=
  print rule ;;
  print "Testing assertion error when calling backward before any forward pass" ;;
  model <- Linear "fc1" 2 3 ;;
  try_except_AssertionError
    (module_backward model None ;; print uncorrect)
    (fun error => print error).

(** Lines 256-259. *)
Definition no_final_sigmoid : M W module :=
  fc1 <- Linear "fc1" 2 6 ;; relu <- ReLU None ;;
  fc2 <- Linear "fc2" 6 4 ;; tanh <- Tanh None ;;
  fc3 <- Linear "fc3" 4 1 ;;
  Sequential [fc1; relu; fc2; tanh; fc3].

Definition test_assertion_error_without_sigmoid_before_BCELoss : M W unit :=
  print rule ;;
  print "Testing assertion error when using BCELoss without final sigmoid layer." ;;
  model <- no_final_sigmoid ;;
  criterion0 <- BCELoss ;;
  data <- load_mock_test_data load_data_p2 ;;
  try_except_AssertionError
    (train_and_test_model model criterion0 test_model_bce data 301
       (1 # 1000)%Q ;;
     print uncorrect)
    (fun error => print error).
End Demo.

(** ** The hand-built module library *)

(** Replace entry [n] of a list; out of range the list is unchanged (the
    handles of this model are always in range). *)
Fixpoint update {A} (n : nat) (x : A) (l : list A) : list A :=
  match l, n with
  | [], _ => []
  | _ :: l', O => x :: l'
  | y :: l', S n' => y :: update n' x l'
  end.

Definition last_opt {A} (l : list A) : option A :=
  match rev l with [] => None | x :: _ => Some x end.

Definition is_some {A} (o : option A) : bool :=
  match o with Some _ => true | None => false end.

Module SpecLib.
Section Lib.
(** The numeric engine is not modelled: [scalar] stands for the floats,
    [params] for the weights of a layer with their gradient accumulators,
    and the [k_] functions for the arithmetic on them. *)
Variable scalar : Type.
Variable params : Type.

Inductive kind : Type :=
| KLinear (n_in n_out : Z)
| KReLU
| KTanh
| KSigmoid.

Inductive loss_kind : Type := KMSELoss | KBCELoss | KBCEWithLogitsLoss.

Local Abbreviation data := (Torch.tensor scalar).

Variable k_init : string -> kind -> params.
Variable k_forward : kind -> params -> data -> data.
Variable k_save : kind -> params -> data -> data -> data.
Variable k_backward : kind -> params -> data -> data -> data * params.
Variable k_zero_grad : params -> params.
Variable k_step : Q -> params -> params.
Variable k_loss : loss_kind -> data -> data -> data.
Variable k_loss_backward : loss_kind -> data -> data -> data.
Variable k_ge_half : data -> outcome data.
Variable k_type_byte : data -> outcome data.
Variable k_eq : data -> data -> outcome data.
Variable k_where : data -> outcome data.
Variable k_sum : data -> outcome data.
Variable k_div : data -> Z -> outcome data.
Variable k_str : data -> outcome string.
(** What [load_data_p2] finds on disk. *)
Variable files : outcome (data * data * data * data).

(** Modelled from the spec: the tensors handed between the modules of
    [modules.py] (not in src/).  The spec states that "a BCELoss model
    must end in a Sigmoid" is asserted by the library, and the script
    hands the loss nothing but the output ([criterion(output, target)],
    line 123); so an output carries the kind of the layer that produced
    it. *)
Record tensor : Type := mkTensor {
  payload : data;
  origin : option kind
}.

(** Modelled from the spec: a layer of [modules.py] (not in src/), with
    the attributes the script reads ([name], [save_for_backward], lines
    235 and 239), its mode and its weights.  [named] tells whether the
    constructor was given a name. *)
Record layer : Type := mkLayer {
  name : string;
  named : bool;
  lkind : kind;
  weights : params;
  training : bool;
  save_for_backward : option data
}.

Definition set_saved (l : layer) (s : option data) : layer :=
  mkLayer (name l) (named l) (lkind l) (weights l) (training l) s.

Definition set_weights (l : layer) (p : params) : layer :=
  mkLayer (name l) (named l) (lkind l) p (training l) (save_for_backward l).

Definition set_training (l : layer) (b : bool) : layer :=
  mkLayer (name l) (named l) (lkind l) (weights l) b (save_for_backward l).

(** Modelled from the spec: a module object of [Module.py] and
    [modules.py] (not in src/): a single layer, or "a composed, ordered
    sequence of layers" with its [_children] (line 234), its own mode and
    its own saved input. *)
Inductive module_obj : Type :=
| Layer (l : layer)
| Container (mode : bool) (saved : option data) (_children : list layer).

Record crit_obj : Type := mkCrit {
  ckind : loss_kind;
  csaved : option (data * data)
}.

Record opt_obj : Type := mkOpt { omodel : nat; olr : Q }.

(** The objects of the library; a handle is an index. *)
Record store : Type := mkStore {
  modules : list module_obj;
  criteria : list crit_obj;
  optimizers : list opt_obj
}.

Local Abbreviation W := (world store).

Definition get_heap : M W store := fun w => (Return (heap w), w).

Definition put_heap (h : store) : M W unit :=
  fun w => (Return tt, mkWorld (grad_enabled w) (stdout w) h).

Definition new_module (o : module_obj) : M W nat :=
  h <- get_heap ;;
  put_heap (mkStore (modules h ++ [o]) (criteria h) (optimizers h)) ;;
  ret (length (modules h)).

Definition get_module (r : nat) : M W module_obj :=
  h <- get_heap ;;
  match nth_error (modules h) r with
  | Some o => ret o
  | None => raise (RuntimeError "no such module")
  end.

Definition set_module (r : nat) (o : module_obj) : M W unit :=
  h <- get_heap ;;
  put_heap (mkStore (update r o (modules h)) (criteria h) (optimizers h)).

Definition new_criterion (k : loss_kind) : M W nat :=
  h <- get_heap ;;
  put_heap (mkStore (modules h) (criteria h ++ [mkCrit k None])
              (optimizers h)) ;;
  ret (length (criteria h)).

Definition get_criterion (r : nat) : M W crit_obj :=
  h <- get_heap ;;
  match nth_error (criteria h) r with
  | Some o => ret o
  | None => raise (RuntimeError "no such criterion")
  end.

Definition set_criterion (r : nat) (o : crit_obj) : M W unit :=
  h <- get_heap ;;
  put_heap (mkStore (modules h) (update r o (criteria h)) (optimizers h)).

Definition get_optimizer (r : nat) : M W opt_obj :=
  h <- get_heap ;;
  match nth_error (optimizers h) r with
  | Some o => ret o
  | None => raise (RuntimeError "no such optimizer")
  end.

(** *** Constructors *)

(** The [name] of a layer built without one. *)
Definition default_name (k : kind) : string :=
  match k with
  | KLinear _ _ => "linear"
  | KReLU => "relu"
  | KTanh => "tanh"
  | KSigmoid => "sigmoid"
  end.

(** A new layer is in training mode and has saved nothing. *)
Definition fresh_layer (given : option string) (k : kind) : layer :=
  let n := match given with Some s => s | None => default_name k end in
  mkLayer n (is_some given) k (k_init n k) true None.

Definition Linear (name : string) (n_in n_out : Z) : M W nat :=
  new_module (Layer (fresh_layer (Some name) (KLinear n_in n_out))).

Definition ReLU (given : option string) : M W nat :=
  new_module (Layer (fresh_layer given KReLU)).

Definition Tanh (given : option string) : M W nat :=
  new_module (Layer (fresh_layer given KTanh)).

Definition Sigmoid (given : option string) : M W nat :=
  new_module (Layer (fresh_layer given KSigmoid)).

Definition parameterless (k : kind) : bool :=
  match k with KLinear _ _ => false | _ => true end.

Definition unnamed_activation (l : layer) : bool :=
  negb (named l) && parameterless (lkind l).

Definition follows_unnamed_activation (children : list layer) : bool :=
  match last_opt children with
  | Some p => unnamed_activation p
  | None => false
  end.

(** Modelled from the spec: the registration of the children by the
    constructor of [Sequential] in [modules.py] (not in src/), guarded by
    the spec's "constructing a sequential model with two or more
    consecutive unnamed activation-only layers must fail with an assertion
    error": a child is refused when it is an unnamed activation and the
    child registered just before it is one too. *)
Fixpoint register (children rest : list layer) : outcome (list layer) :=
  match rest with
  | [] => Return children
  | l :: rest' =>
      if unnamed_activation l && follows_unnamed_activation children
      then Raise (AssertionError
                    "consecutive unnamed parameterless modules")
      else register (children ++ [l]) rest'
  end.

Fixpoint as_layers (rs : list nat) : M W (list layer) :=
  match rs with
  | [] => ret []
  | r :: rs' =>
      o <- get_module r ;;
      match o with
      | Layer l => ls <- as_layers rs' ;; ret (l :: ls)
      | Container _ _ _ =>
          raise (TypeError "a child of Sequential must be a layer")
      end
  end.

Definition Sequential (rs : list nat) : M W nat :=
  ls <- as_layers rs ;;
  children <- lift (register [] ls) ;;
  new_module (Container true None children).

Definition MSELoss : M W nat := new_criterion KMSELoss.
Definition BCELoss : M W nat := new_criterion KBCELoss.
Definition BCEWithLogitsLoss : M W nat := new_criterion KBCEWithLogitsLoss.

(** *** Forward *)

(** Modelled from the spec: the forward pass of a layer of [modules.py]
    (not in src/): "computation of a model's output from an input", with
    the "intermediate values captured during the forward pass and
    required by the backward pass" kept only in training mode, so that
    they "remain unchanged after an evaluation-mode forward pass". *)
Definition layer_forward (l : layer) (x : tensor) : layer * tensor :=
  let y := k_forward (lkind l) (weights l) (payload x) in
  (if training l
   then set_saved l (Some (k_save (lkind l) (weights l) (payload x) y))
   else l,
   mkTensor y (Some (lkind l))).

Fixpoint children_forward (cs : list layer) (x : tensor)
  : list layer * tensor :=
  match cs with
  | [] => ([], x)
  | c :: cs' =>
      let (c', y) := layer_forward c x in
      let (cs'', z) := children_forward cs' y in
      (c' :: cs'', z)
  end.

Definition module_forward (o : module_obj) (x : tensor)
  : module_obj * tensor :=
  match o with
  | Layer l => let (l', y) := layer_forward l x in (Layer l', y)
  | Container mode saved cs =>
      let (cs', y) := children_forward cs x in
      (Container mode (if mode then Some (payload x) else saved) cs', y)
  end.

Definition call_module (r : nat) (x : tensor) : M W tensor :=
  o <- get_module r ;;
  let (o', y) := module_forward o x in
  set_module r o' ;;
  ret y.

(** *** Backward *)

Definition before_forward : exn :=
  AssertionError "backward called before any forward pass".

(** Modelled from the spec: the backward pass of [modules.py] (not in
    src/): "backward cannot precede forward" is asserted first, on the
    saved intermediates; only then is the gradient used. *)
Definition layer_backward (l : layer) (g : option data)
  : outcome (layer * data) :=
  match save_for_backward l with
  | None => Raise before_forward
  | Some s =>
      match g with
      | None => Raise (TypeError "the gradient is None")
      | Some g =>
          let (g_in, p) := k_backward (lkind l) (weights l) s g in
          Return (set_weights l p, g_in)
      end
  end.

(** The children from the last to the first; [rev_cs] is [_children]
    reversed, and so is the result. *)
Fixpoint children_backward (rev_cs : list layer) (g : data)
  : outcome (list layer * data) :=
  match rev_cs with
  | [] => Return ([], g)
  | c :: cs' =>
      match layer_backward c (Some g) with
      | Raise e => Raise e
      | Return (c', g') =>
          match children_backward cs' g' with
          | Raise e => Raise e
          | Return (cs'', g'') => Return (c' :: cs'', g'')
          end
      end
  end.

Definition module_obj_backward (o : module_obj) (g : option data)
  : outcome module_obj :=
  match o with
  | Layer l =>
      match layer_backward l g with
      | Raise e => Raise e
      | Return (l', _) => Return (Layer l')
      end
  | Container mode saved cs =>
      match saved with
      | None => Raise before_forward
      | Some _ =>
          match g with
          | None => Raise (TypeError "the gradient is None")
          | Some g =>
              match children_backward (rev cs) g with
              | Raise e => Raise e
              | Return (cs', _) => Return (Container mode saved (rev cs'))
              end
          end
      end
  end.

Definition module_backward (r : nat) (g : option tensor) : M W unit :=
  o <- get_module r ;;
  o' <- lift (module_obj_backward o (option_map payload g)) ;;
  set_module r o'.

(** *** Modes *)

(** Modelled from the spec: [eval()] and [train()] of [Module.py] (not in
    src/) switch a model, with its layers, between the evaluation mode
    and the training mode. *)
Definition set_mode (b : bool) (o : module_obj) : module_obj :=
  match o with
  | Layer l => Layer (set_training l b)
  | Container _ saved cs =>
      Container b saved (map (fun c => set_training c b) cs)
  end.

Definition module_eval (r : nat) : M W unit :=
  o <- get_module r ;; set_module r (set_mode false o).

Definition module_train (r : nat) : M W unit :=
  o <- get_module r ;; set_module r (set_mode true o).

(** *** Losses *)

Definition sigmoid_expected : exn :=
  AssertionError "BCELoss expects the output of a final Sigmoid layer".

(** Modelled from the spec: the call of a loss of [modules.py] (not in
    src/): "using BCELoss with a model whose final layer is not a Sigmoid
    must fail with an assertion error"; the loss keeps its arguments for
    its own backward (line 233). *)
Definition call_criterion (c : nat) (output target : tensor) : M W tensor :=
  o <- get_criterion c ;;
  match ckind o, origin output with
  | KBCELoss, Some KSigmoid => ret tt
  | KBCELoss, _ => raise sigmoid_expected
  | _, _ => ret tt
  end ;;
  set_criterion c (mkCrit (ckind o) (Some (payload output, payload target))) ;;
  ret (mkTensor (k_loss (ckind o) (payload output) (payload target)) None).

Definition criterion_backward (c : nat) : M W tensor :=
  o <- get_criterion c ;;
  match csaved o with
  | None => raise before_forward
  | Some (y, t) => ret (mkTensor (k_loss_backward (ckind o) y t) None)
  end.

(** *** The optimizer *)

Definition map_weights (f : params -> params) (o : module_obj)
  : module_obj :=
  match o with
  | Layer l => Layer (set_weights l (f (weights l)))
  | Container mode saved cs =>
      Container mode saved
        (map (fun c => set_weights c (f (weights c))) cs)
  end.

Definition SGD (model : nat) (lr : Q) : M W nat :=
  h <- get_heap ;;
  put_heap (mkStore (modules h) (criteria h)
              (optimizers h ++ [mkOpt model lr])) ;;
  ret (length (optimizers h)).

Definition zero_grad (opt : nat) : M W unit :=
  oo <- get_optimizer opt ;;
  o <- get_module (omodel oo) ;;
  set_module (omodel oo) (map_weights k_zero_grad o).

Definition step (opt : nat) (loss : tensor) : M W unit :=
  oo <- get_optimizer opt ;;
  o <- get_module (omodel oo) ;;
  set_module (omodel oo) (map_weights (k_step (olr oo)) o).

(** *** Tensor functions and helpers *)

Definition on_data {A} (f : data -> outcome A) (g : A -> tensor)
    (t : tensor) : outcome tensor :=
  match f (payload t) with
  | Return d => Return (g d)
  | Raise e => Raise e
  end.

Definition plain (d : data) : tensor := mkTensor d None.

Definition len (t : tensor) : outcome Z :=
  match Torch.shape (payload t) with
  | n :: _ => Return (Z.of_nat n)
  | [] => Raise (TypeError "len() of a 0-d tensor")
  end.

#[local] Instance slicing : Slicing tensor :=
  Build_Slicing (on_data (@Torch.getitem_col1 scalar) plain)
                (on_data (@Torch.view_col scalar) plain).

Definition load_data_p2 : M W (tensor * tensor * tensor * tensor) :=
  '(a, b, c, d) <- lift files ;;
  ret (plain a, plain b, plain c, plain d).

(** The objects of this library are not those of the reference
    framework. *)
Definition not_torch {A} : M W A :=
  raise (AttributeError "not an object of the reference framework").

Definition framework : Framework :=
  @Build_Framework store tensor nat nat nat unit slicing
    load_data_p2
    Linear ReLU Tanh Sigmoid Sequential MSELoss BCELoss BCEWithLogitsLoss
    call_module module_backward module_eval module_train
    call_criterion criterion_backward
    SGD zero_grad step
    (fun _ => not_torch) (fun _ _ => not_torch) (fun _ => not_torch)
    (fun _ => not_torch)
    (fun t => Torch.dim (payload t))
    (on_data (@Torch.flatten scalar) plain)
    (on_data k_ge_half plain)
    (on_data k_type_byte plain)
    (fun a b => on_data (k_eq (payload a)) plain b)
    (on_data k_where plain)
    (on_data k_sum plain)
    len
    (fun t n => on_data (fun d => k_div d n) plain t)
    (fun t => k_str (payload t)).

(** *** What the claims observe of an object *)

(** The object behind a handle. *)
Definition object_at (w : W) (m : nat) : option module_obj :=
  nth_error (modules (heap w)) m.

(** Whether the model and its layers are all in training mode. *)
Definition in_training (o : module_obj) : bool :=
  match o with
  | Layer l => training l
  | Container mode _ cs => mode && forallb training cs
  end.

Definition is_training (m : nat) (w : W) : Prop :=
  exists o, object_at w m = Some o /\ in_training o = true.

(** What the model itself has saved for its backward pass. *)
Definition own_saved (o : module_obj) : option data :=
  match o with
  | Layer l => save_for_backward l
  | Container _ saved _ => saved
  end.

(** The [save_for_backward] attribute of the model and of every module
    of [model._children], by name. *)
Definition saved_state (o : module_obj)
  : option data * list (string * option data) :=
  (own_saved o,
   match o with
   | Layer _ => []
   | Container _ _ cs => map (fun c => (name c, save_for_backward c)) cs
   end).

(** No forward pass has left anything for the backward pass of the
    model. *)
Definition never_forwarded (w : W) (m : nat) : Prop :=
  exists o, object_at w m = Some o /\ own_saved o = None.

(** The kind of the last layer of a model. *)
Definition final_kind (o : module_obj) : option kind :=
  match o with
  | Layer l => Some (lkind l)
  | Container _ _ cs => option_map lkind (last_opt cs)
  end.

(** The modules once the objects [os] were created in this order, and the
    handles they were given. *)
Definition snocs (ms os : list module_obj) : list module_obj :=
  fold_left (fun acc o => acc ++ [o]) os ms.

Fixpoint handles_of (ms os : list module_obj) : list nat :=
  match os with
  | [] => []
  | o :: os' => length ms :: handles_of (ms ++ [o]) os'
  end.

Definition created (w : W) (os : list module_obj) : W :=
  mkWorld (grad_enabled w) (stdout w)
    (mkStore (snocs (modules (heap w)) os) (criteria (heap w))
       (optimizers (heap w))).

(** The world with the object behind [r] replaced. *)
Definition set_object (w : W) (r : nat) (o : module_obj) : W :=
  mkWorld (grad_enabled w) (stdout w)
    (mkStore (update r o (modules (heap w))) (criteria (heap w))
       (optimizers (heap w))).

Definition criterion_at (w : W) (c : nat) : option crit_obj :=
  nth_error (criteria (heap w)) c.

Definition optimizer_at (w : W) (r : nat) : option opt_obj :=
  nth_error (optimizers (heap w)) r.

(** Whether the model and its layers are all in evaluation mode. *)
Definition in_evaluation (o : module_obj) : bool :=
  match o with
  | Layer l => negb (training l)
  | Container mode _ cs =>
      negb mode && forallb (fun c => negb (training c)) cs
  end.

(** The calls that construct a module. *)
Inductive constructs : M W nat -> Prop :=
| constructs_Linear name n_in n_out : constructs (Linear name n_in n_out)
| constructs_ReLU given : constructs (ReLU given)
| constructs_Tanh given : constructs (Tanh given)
| constructs_Sigmoid given : constructs (Sigmoid given)
| constructs_Sequential rs : constructs (Sequential rs).

End Lib.
End SpecLib.

(** ** Closed instances *)

(** The library above with integers for the floats and kernels that
    pass their argument on. *)
Module Run.
Definition data : Type := Torch.tensor Z.

Definition on_disk : data * data * data * data :=
  (Torch.Mat 2 [[1; 2]; [3; 4]], Torch.Mat 2 [[1; 0]; [0; 1]],
   Torch.Mat 2 [[5; 6]], Torch.Mat 2 [[0; 1]]).

Definition k_init (_ : string) (_ : SpecLib.kind) : unit := tt.
Definition k_forward (_ : SpecLib.kind) (_ : unit) (d : data) : data := d.
Definition k_save (_ : SpecLib.kind) (_ : unit) (x _ : data) : data := x.
Definition k_backward (_ : SpecLib.kind) (_ : unit) (_ g : data)
  : data * unit := (g, tt).
Definition k_zero_grad (p : unit) : unit := p.
Definition k_step (_ : Q) (p : unit) : unit := p.
Definition k_loss (_ : SpecLib.loss_kind) (y _ : data) : data := y.
Definition k_pure (d : data) : outcome data := Return d.
Definition k_eq (a _ : data) : outcome data := Return a.
Definition k_div (d : data) (_ : Z) : outcome data := Return d.
Definition k_str (_ : data) : outcome string := Return "0.0".

Definition lib : Framework :=
  SpecLib.framework k_init k_forward k_save k_backward k_zero_grad k_step
    k_loss k_loss k_pure k_pure k_eq k_pure k_pure k_div k_str
    (Return on_disk).

Definition start : world (SpecLib.store Z unit) :=
  mkWorld false [] (SpecLib.mkStore [] [] []).

(** A two-layer model ending in a Sigmoid, a [BCELoss] and the data, as
    the tests set them up. *)
Definition setup
  : M (world (@heap_t lib)) (@module lib * @criterion lib *
       (@tensor lib * @tensor lib * @tensor lib * @tensor lib)) :=
  data <- load_mock_test_data (@load_data_p2 lib) ;;
  fc1 <- @Linear lib "fc1" 2 1 ;;
  sigmoid <- @Sigmoid lib None ;;
  model <- @Sequential lib [fc1; sigmoid] ;;
  criterion0 <- @BCELoss lib ;;
  ret (model, criterion0, data).

Definition ready : world (@heap_t lib) := snd (setup start).

Definition model : @module lib := 2%nat.

Definition bce : @criterion lib := 0%nat.

Definition batch : @tensor lib * @tensor lib * @tensor lib * @tensor lib :=
  (SpecLib.plain (Torch.Mat 2 [[1; 2]; [3; 4]]),
   SpecLib.plain (Torch.Mat 1 [[0]; [1]]),
   SpecLib.plain (Torch.Mat 2 [[5; 6]]),
   SpecLib.plain (Torch.Mat 1 [[1]])).

(** The world once the model has run a forward pass in training mode and
    was then put in evaluation mode. *)
Definition evaluated : world (@heap_t lib) :=
  snd ((_ <- @call_module lib model (fst (fst (fst batch))) ;;
        @module_eval lib model) ready).



(** A loader whose targets have one column already. *)
Definition narrow : M unit (data * data * data * data) :=
  ret (Torch.Mat 2 [[1; 2]], Torch.Mat 1 [[7]],
       Torch.Mat 2 [[3; 4]], Torch.Mat 1 [[8]]).

(** A loader whose targets have three columns. *)
Definition wide : M unit (data * data * data * data) :=
  ret (Torch.Mat 2 [[1; 2]; [3; 4]], Torch.Mat 3 [[7; 8; 9]; [4; 5; 6]],
       Torch.Mat 2 [[3; 4]], Torch.Mat 3 [[1; 0; 0]]).
End Run.

(** A library without state: [Sequential] ends as [built] says,
    [backward] and the call of a loss end as [guarded] says, and every
    other call returns. *)
Module Scripted.
Definition lib (built guarded : outcome unit) : Framework :=
  @Build_Framework unit unit unit unit unit unit
    (Build_Slicing (fun t => Return t) (fun t => Return t))
    (ret (tt, tt, tt, tt))
    (fun _ _ _ => ret tt) (fun _ => ret tt) (fun _ => ret tt)
    (fun _ => ret tt) (fun _ => lift built)
    (ret tt) (ret tt) (ret tt)
    (fun _ _ => ret tt) (fun _ _ => lift guarded)
    (fun _ => ret tt) (fun _ => ret tt)
    (fun _ _ _ => lift guarded) (fun _ => ret tt)
    (fun _ _ => ret tt) (fun _ => ret tt) (fun _ _ => ret tt)
    (fun _ => ret tt) (fun _ _ => ret tt) (fun _ => ret tt)
    (fun _ => ret tt)
    (fun _ => 2) (fun t => Return t) (fun t => Return t)
    (fun t => Return t) (fun _ t => Return t) (fun t => Return t)
    (fun t => Return t) (fun _ => Return 1) (fun t _ => Return t)
    (fun _ => Return "0.0").

Definition start : world unit := mkWorld false [] tt.
End Scripted.

(** A library without state in which [loss.backward()] of the reference
    framework ends as [backward] says and every other call returns. *)
Module Reference.
Definition lib (backward : outcome unit) : Framework :=
  @Build_Framework unit unit unit unit unit unit
    (Build_Slicing (fun t => Return t) (fun t => Return t))
    (ret (tt, tt, tt, tt))
    (fun _ _ _ => ret tt) (fun _ => ret tt) (fun _ => ret tt)
    (fun _ => ret tt) (fun _ => ret tt)
    (ret tt) (ret tt) (ret tt)
    (fun _ _ => ret tt) (fun _ _ => ret tt)
    (fun _ => ret tt) (fun _ => ret tt)
    (fun _ _ _ => ret tt) (fun _ => ret tt)
    (fun _ _ => ret tt) (fun _ => ret tt) (fun _ _ => ret tt)
    (fun _ => ret tt) (fun _ _ => ret tt) (fun _ => lift backward)
    (fun _ => ret tt)
    (fun _ => 2) (fun t => Return t) (fun t => Return t)
    (fun t => Return t) (fun _ t => Return t) (fun t => Return t)
    (fun t => Return t) (fun _ => Return 1) (fun t _ => Return t)
    (fun _ => Return "0.0").

Definition no_grad : exn :=
  RuntimeError "element 0 of tensors does not require grad".

Definition start : world unit := mkWorld false [] tt.
End Reference.

(** ** What a negative test does with its guarded call *)

(** [guarded] is the call inside [try], run in [w0]; [test] is how the
    whole test ends.  An [AssertionError] is caught and its message
    printed; a normal return prints the complaint; any other error leaves
    the test as it is. *)
Definition catches_only_AssertionError {H A}
    (guarded : M (world H) A) (w0 : world H)
    (test : outcome unit * world H) : Prop :=
  (forall msg w1,
      guarded w0 = (Raise (AssertionError msg), w1) ->
      test = (Return tt, with_line w1 msg)) /\
  (forall a w1,
      guarded w0 = (Return a, w1) ->
      test = (Return tt, with_line w1 uncorrect)) /\
  (forall e w1,
      guarded w0 = (Raise e, w1) -> is_AssertionError e = false ->
      test = (Raise e, w1)).

(** ** Notions for the properties of the script *)

(** A target that [t[:,1]] cannot be taken from: one-dimensional, or with
    fewer than two columns. *)
Definition too_narrow {A} (t : Torch.tensor A) : Prop :=
  match t with
  | Torch.Vec _ => True
  | Torch.Mat w _ => (w <= 1)%nat
  end.

Definition is_IndexError (e : exn) : Prop := exists msg, e = IndexError msg.

(** The statement [c] leaves the observation [f] of the state as it
    found it, however it ends. *)
Definition preserves {S A X} (f : S -> X) (c : M S A) : Prop :=
  forall s r s', c s = (r, s') -> f s' = f s.

(** A library none of whose calls changes the observation [f] of the
    world, for the calls the training loops and the testers make. *)
Record frames {F : Framework} {X} (f : world heap_t -> X) : Prop := {
  frames_SGD : forall m lr, preserves f (SGD m lr);
  frames_zero_grad : forall o, preserves f (zero_grad o);
  frames_call_module : forall m x, preserves f (call_module m x);
  frames_call_criterion : forall c y t, preserves f (call_criterion c y t);
  frames_criterion_backward : forall c, preserves f (criterion_backward c);
  frames_module_backward : forall m g, preserves f (module_backward m g);
  frames_step : forall o l, preserves f (step o l);
  frames_parameters : forall m, preserves f (parameters m);
  frames_torch_optim_SGD : forall ps lr, preserves f (torch_optim_SGD ps lr);
  frames_tensor_backward : forall l, preserves f (tensor_backward l);
  frames_step0 : forall o, preserves f (step0 o);
  frames_module_eval : forall m, preserves f (module_eval m);
  frames_module_train : forall m, preserves f (module_train m);
  frames_Sigmoid : forall given, preserves f (Sigmoid given)
}.

(** A library that is nothing but the mode of one model: [heap] tells
    whether the model is in training mode, [eval()] and [train()] set it,
    [torch.ge] ends as [ge] says and every other call returns. *)
Module Moded.
Definition set_mode (b : bool) : M (world bool) unit :=
  fun w => (Return tt, mkWorld (grad_enabled w) (stdout w) b).

Definition lib (ge : outcome unit) : Framework :=
  @Build_Framework bool unit unit unit unit unit
    (Build_Slicing (fun t => Return t) (fun t => Return t))
    (ret (tt, tt, tt, tt))
    (fun _ _ _ => ret tt) (fun _ => ret tt) (fun _ => ret tt)
    (fun _ => ret tt) (fun _ => ret tt)
    (ret tt) (ret tt) (ret tt)
    (fun _ _ => ret tt) (fun _ _ => ret tt)
    (fun _ => set_mode false) (fun _ => set_mode true)
    (fun _ _ _ => ret tt) (fun _ => ret tt)
    (fun _ _ => ret tt) (fun _ => ret tt) (fun _ _ => ret tt)
    (fun _ => ret tt) (fun _ _ => ret tt) (fun _ => ret tt)
    (fun _ => ret tt)
    (fun _ => 2) (fun t => Return t) (fun _ => ge)
    (fun t => Return t) (fun _ t => Return t) (fun t => Return t)
    (fun t => Return t) (fun _ => Return 1) (fun t _ => Return t)
    (fun _ => Return "0.0").

Definition in_eval (_ : unit) (w : world bool) : bool := negb (heap w).

Definition start : world bool := mkWorld false [] true.
End Moded.

(** The line the loops print for epoch [e], whatever the loss. *)
Definition is_loss_line (e : Z) (line : string) : Prop :=
  exists r, line = ("e = " ++ str_of_Z e ++ ", loss = " ++ r)%string.

(** [lines] holds one loss line for each of the [epochs] that is a
    multiple of [period], in the order of the epochs. *)
Definition logged (period : Z) (epochs : list Z) (lines : list string)
  : Prop :=
  Forall2 is_loss_line (filter (fun e => e mod period =? 0) epochs) lines.

(** * Properties *)

(** ** The monad *)

Lemma bind_Return_inv {S A B} (c : M S A) (k : A -> M S B) s b s' :
  bind c k s = (Return b, s') ->
  exists a s1, c s = (Return a, s1) /\ k a s1 = (Return b, s').
Proof.
  unfold bind. destruct (c s) as [[a|e] s1]; [eauto | discriminate].
Qed.

Lemma bind_Return {S A B} (c : M S A) (k : A -> M S B) s a s1 :
  c s = (Return a, s1) -> bind c k s = k a s1.
Proof. unfold bind. now intros ->. Qed.

Lemma bind_Raise {S A B} (c : M S A) (k : A -> M S B) s e s1 :
  c s = (Raise e, s1) -> bind c k s = (Raise e, s1).
Proof. unfold bind. now intros ->. Qed.

Lemma lift_Return_inv {S A} (o : outcome A) (s : S) a s' :
  lift o s = (Return a, s') -> o = Return a /\ s' = s.
Proof. unfold lift. intros E. now inversion E. Qed.

Lemma ret_inv {S A} (a b : A) (s s' : S) :
  ret a s = (Return b, s') -> b = a /\ s' = s.
Proof. unfold ret. intros E. now inversion E. Qed.

(** One statement of a block that returned: name its value and the state
    it left. *)
Ltac mstep H :=
  let a := fresh "a" in
  let s := fresh "s" in
  let E := fresh "E" in
  apply bind_Return_inv in H; destruct H as (a & s & E & H).

Ltac mstep_as H a s E :=
  apply bind_Return_inv in H; destruct H as (a & s & E & H).

(** ** [load_mock_test_data] *)

Lemma column_wf {A} (w : nat) (rows : list (list A)) :
  Forall (fun r => length r = w) rows -> (2 <= w)%nat ->
  exists c, Torch.column 1 rows = Some c /\
            Forall2 (fun r x => nth_error r 1 = Some x) rows c.
Proof.
  intros Hwf Hw. induction Hwf as [|r rows Hr _ IH].
  - exists []. split; [reflexivity | constructor].
  - destruct IH as (c & Hc & Hall).
    destruct (nth_error r 1) as [x|] eqn:Hx.
    + exists (x :: c). cbn [Torch.column]. rewrite Hx, Hc.
      split; [reflexivity|].
      now constructor.
    + apply nth_error_None in Hx. lia.
Qed.

Lemma as_column_rows {A} (rows : list (list A)) (c : list A) :
  Forall2 (fun r x => nth_error r 1 = Some x) rows c ->
  Forall2 (fun r r' => exists x, nth_error r 1 = Some x /\ r' = [x])
          rows (map (fun x => [x]) c).
Proof.
  induction 1; simpl; constructor; eauto.
Qed.

Lemma getitem_view_column {A} (w : nat) (rows : list (list A)) :
  Torch.wf (Torch.Mat w rows) -> (2 <= w)%nat ->
  exists col,
    Torch.getitem_col1 (Torch.Mat w rows) = Return (Torch.Vec col) /\
    Torch.view_col (Torch.Vec col) = Return (Torch.Mat 1 (map (fun x => [x]) col)) /\
    Forall2 (fun r x => nth_error r 1 = Some x) rows col.
Proof.
  intros Hwf Hw. destruct (column_wf Hwf Hw) as (c & Hc & Hall).
  exists c. cbn [Torch.getitem_col1 Torch.view_col Torch.as_column].
  rewrite Hc.
  destruct (w <=? 1)%nat eqn:E; [apply Nat.leb_le in E; lia|].
  repeat split; auto.
Qed.

(** C10, for targets of at least two columns.  When both targets handed
    over by the loader are well-formed matrices with at least two columns,
    [load_mock_test_data] returns the loader's inputs untouched, and each returned target is the
    column of index 1 of the loader's target as a matrix of shape
    [(N, 1)]: row [i] of the result is the one-element row holding entry 1
    of row [i] of the loader's target. The state is the one the loader
    left. *)
Theorem load_mock_test_data_targets (A S : Type)
    (loader : M S (Torch.tensor A * Torch.tensor A *
                   Torch.tensor A * Torch.tensor A))
    (s s' : S) (train_input test_input : Torch.tensor A)
    (w1 w2 : nat) (rows1 rows2 : list (list A)) :
  loader s = (Return (train_input, Torch.Mat w1 rows1,
                      test_input, Torch.Mat w2 rows2), s') ->
  Torch.wf (Torch.Mat w1 rows1) -> Torch.wf (Torch.Mat w2 rows2) ->
  (2 <= w1)%nat -> (2 <= w2)%nat ->
  exists col1 col2,
    load_mock_test_data loader s =
      (Return (train_input, Torch.Mat 1 col1, test_input, Torch.Mat 1 col2),
       s') /\
    Forall2 (fun r r' => exists x, nth_error r 1 = Some x /\ r' = [x])
            rows1 col1 /\
    Forall2 (fun r r' => exists x, nth_error r 1 = Some x /\ r' = [x])
            rows2 col2 /\
    Torch.shape (Torch.Mat 1 col1) = [length rows1; 1%nat] /\
    Torch.shape (Torch.Mat 1 col2) = [length rows2; 1%nat].
Proof.
  intros Hload Hwf1 Hwf2 Hw1 Hw2.
  destruct (getitem_view_column Hwf1 Hw1) as (c1 & Hg1 & Hv1 & Hall1).
  destruct (getitem_view_column Hwf2 Hw2) as (c2 & Hg2 & Hv2 & Hall2).
  exists (map (fun x => [x]) c1), (map (fun x => [x]) c2).
  split; [|repeat split].
  - unfold load_mock_test_data.
    rewrite (bind_Return _ _ _ Hload).
    unfold getitem_col1, view_col, Torch.slicing.
    unfold bind at 1, lift at 1. rewrite Hg1.
    unfold bind at 1, lift at 1. rewrite Hv1.
    unfold bind at 1, lift at 1. rewrite Hg2.
    unfold bind at 1, lift at 1. rewrite Hv2.
    reflexivity.
  - now apply as_column_rows.
  - now apply as_column_rows.
  - simpl. rewrite length_map.
    now rewrite (Forall2_length Hall1).
  - simpl. rewrite length_map.
    now rewrite (Forall2_length Hall2).
Qed.

Lemma load_mock_test_data_targets_witness :
  exists col1 col2,
    load_mock_test_data Run.wide tt =
      (Return (Torch.Mat 2 [[1; 2]; [3; 4]], Torch.Mat 1 col1,
               Torch.Mat 2 [[3; 4]], Torch.Mat 1 col2), tt) /\
    col1 = [[8]; [5]] /\ col2 = [[0]].
Proof.
  destruct (@load_mock_test_data_targets Z unit Run.wide tt tt
              (Torch.Mat 2 [[1; 2]; [3; 4]]) (Torch.Mat 2 [[3; 4]])
              3%nat 3%nat [[7; 8; 9]; [4; 5; 6]] [[1; 0; 0]])
    as (c1 & c2 & Hrun & _).
  - reflexivity.
  - simpl. repeat constructor.
  - simpl. repeat constructor.
  - lia.
  - lia.
  - exists c1, c2. split; [exact Hrun|].
    vm_compute in Hrun. inversion Hrun. split; reflexivity.
Defined.

(** C10 does not extend to every width: with targets of one column the
    slicing [[:,1]] raises [IndexError], and nothing is returned. *)
Lemma load_mock_test_data_width_one_raises :
  load_mock_test_data Run.narrow tt =
    (Raise (IndexError "index 1 is out of bounds for dimension 1"), tt) /\
  ~ (exists r s', load_mock_test_data Run.narrow tt = (Return r, s')).
Proof.
  split; [reflexivity|].
  intros (r & s' & H). vm_compute in H. discriminate.
Qed.

(** ** The histories of [train_and_test_model] *)

Section Histories.
Context {S T : Type}.
Variable body : Z -> list T * list T * list T -> M S (list T * list T * list T).
Hypothesis body_appends :
  forall e lh teh trh s h' s',
    body e (lh, teh, trh) s = (Return h', s') ->
    exists a b c, h' = (lh ++ [a], teh ++ [b], trh ++ [c]).

Lemma firstn_snoc (l l' : list T) (x : T) (n : nat) :
  length l = n -> firstn (Datatypes.S n) l' = l ++ [x] -> firstn n l' = l.
Proof.
  intros Hlen Hfirst.
  assert (E : firstn n (firstn (Datatypes.S n) l') = firstn n l').
  { rewrite firstn_firstn. f_equal. lia. }
  rewrite <- E, Hfirst, firstn_app, Hlen, Nat.sub_diag.
  simpl. rewrite app_nil_r. rewrite <- Hlen. apply firstn_all.
Qed.

(** A loop over the epochs [start], ..., [start + n - 1] that begins
    with histories of length [start] ends with histories of length
    [start + n] that extend them, and epoch [e] is the run of the body that
    takes their first [e] entries to their first [e + 1] entries. *)
Lemma for_in_histories (n : nat) :
  forall (start : nat) lh teh trh s lh' teh' trh' s',
    length lh = start -> length teh = start -> length trh = start ->
    for_in (map Z.of_nat (seq start n)) body (lh, teh, trh) s
      = (Return (lh', teh', trh'), s') ->
    length lh' = (start + n)%nat /\ length teh' = (start + n)%nat /\
    length trh' = (start + n)%nat /\
    firstn start lh' = lh /\ firstn start teh' = teh /\
    firstn start trh' = trh /\
    exists ws : nat -> S,
      ws start = s /\ ws (start + n)%nat = s' /\
      forall e : nat, (start <= e < start + n)%nat ->
        body (Z.of_nat e) (firstn e lh', firstn e teh', firstn e trh') (ws e)
        = (Return (firstn (Datatypes.S e) lh', firstn (Datatypes.S e) teh',
                   firstn (Datatypes.S e) trh'), ws (Datatypes.S e)).
Proof.
  induction n as [|n IH]; intros start lh teh trh s lh' teh' trh' s' L1 L2 L3 H.
  - simpl in H. apply ret_inv in H. destruct H as [H ->].
    inversion H; subst lh' teh' trh'. rewrite Nat.add_0_r.
    repeat split; auto using firstn_all.
    + rewrite <- L1 at 1. apply firstn_all.
    + rewrite <- L2 at 1. apply firstn_all.
    + rewrite <- L3 at 1. apply firstn_all.
    + exists (fun _ => s). repeat split. intros e He. lia.
  - simpl in H. mstep H. destruct a as [[lh1 teh1] trh1].
    destruct (body_appends E) as (x & y & z & Hh).
    inversion Hh; subst lh1 teh1 trh1. clear Hh.
    apply IH in H; try (rewrite length_app; simpl; lia).
    destruct H as (N1 & N2 & N3 & F1 & F2 & F3 & ws & W0 & W1 & Hws).
    assert (G1 := @firstn_snoc _ _ _ _ L1 F1).
    assert (G2 := @firstn_snoc _ _ _ _ L2 F2).
    assert (G3 := @firstn_snoc _ _ _ _ L3 F3).
    repeat split; try lia; auto.
    exists (fun e => if (e =? start)%nat then s else ws e).
    repeat split.
    + now rewrite Nat.eqb_refl.
    + replace (start + Datatypes.S n)%nat with (Datatypes.S start + n)%nat by lia.
      destruct (Nat.eqb_spec (Datatypes.S start + n) start); [lia | exact W1].
    + intros e He.
      destruct (Nat.eqb_spec (Datatypes.S e) start); [lia|].
      destruct (Nat.eqb_spec e start) as [->|Hne].
      * rewrite G1, G2, G3, F1, F2, F3, W0. exact E.
      * apply Hws. lia.
Qed.
End Histories.

Lemma train_and_test_epoch_appends {F : Framework}
    model criterion0 test_model_fn data optimizer0 e
    (lh teh trh : list tensor) w h' w' :
  train_and_test_epoch model criterion0 test_model_fn data optimizer0 e
    (lh, teh, trh) w = (Return h', w') ->
  exists a b c, h' = (lh ++ [a], teh ++ [b], trh ++ [c]).
Proof.
  destruct data as [[[input target] test_input] test_target].
  unfold train_and_test_epoch. intros H.
  repeat mstep H. apply ret_inv in H. destruct H as [-> _]. eauto.
Qed.

Lemma train_and_test_epoch_torch_appends {F : Framework}
    model criterion0 test_model_fn data optimizer0 e
    (lh teh trh : list tensor) w h' w' :
  train_and_test_epoch_torch model criterion0 test_model_fn data optimizer0 e
    (lh, teh, trh) w = (Return h', w') ->
  exists a b c, h' = (lh ++ [a], teh ++ [b], trh ++ [c]).
Proof.
  destruct data as [[[input target] test_input] test_target].
  unfold train_and_test_epoch_torch. intros H.
  repeat mstep H. apply ret_inv in H. destruct H as [-> _]. eauto.
Qed.

(** What epoch [e] records: the loss is the value the criterion returns
    on the output of the model for the training input, the two
    accuracies are the values the tester returns on the test set and on
    the training set, in this order. *)
Lemma train_and_test_epoch_records {F : Framework}
    model criterion0 test_model_fn input target test_input test_target
    optimizer0 e (lh teh trh lh' teh' trh' : list tensor) w w' :
  train_and_test_epoch model criterion0 test_model_fn
    (input, target, test_input, test_target) optimizer0 e
    (lh, teh, trh) w = (Return (lh', teh', trh'), w') ->
  exists output loss test_acc train_acc w1 w2 w3 w4 w5,
    zero_grad optimizer0 w = (Return tt, w1) /\
    call_module model input w1 = (Return output, w2) /\
    call_criterion criterion0 output target w2 = (Return loss, w3) /\
    test_model_fn model test_input test_target w3 = (Return test_acc, w4) /\
    test_model_fn model input target w4 = (Return train_acc, w5) /\
    lh' = lh ++ [loss] /\ teh' = teh ++ [test_acc] /\
    trh' = trh ++ [train_acc].
Proof.
  unfold train_and_test_epoch. intros H.
  mstep H. destruct a. mstep H. mstep H. mstep H. mstep H.
  eexists _, _, _, _, _, _, _, _, _.
  do 5 (split; [eassumption|]).
  repeat mstep H. apply ret_inv in H. destruct H as [H _].
  now inversion H.
Qed.

(** The entry that one more element of a prefix adds. *)
Lemma nth_error_firstn_snoc {T} (l pre : list T) (x : T) (e : nat) :
  length pre = e -> firstn (Datatypes.S e) l = pre ++ [x] ->
  nth_error l e = Some x.
Proof.
  intros Hlen Hfirst.
  assert (E : nth_error (firstn (Datatypes.S e) l) e = nth_error l e).
  { rewrite nth_error_firstn.
    destruct (Nat.ltb_spec e (Datatypes.S e)); [reflexivity | lia]. }
  rewrite <- E, Hfirst, nth_error_app2 by lia.
  rewrite Hlen, Nat.sub_diag. reflexivity.
Qed.

(** C6.  When [train_and_test_model] runs for [nb_epochs] epochs and
    returns, each of the three returned histories has exactly [nb_epochs]
    entries, one appended per epoch in epoch order.  The epochs run one
    after the other from the state [SGD(model, lr)] left; epoch [e] is the
    run of the loop body that takes the first [e] entries of the three
    histories to their first [e + 1] entries, and entry [e] is what that
    epoch recorded: in [loss_history] the value the criterion returned on
    the output of the model for the training input, in [test_acc_history]
    and [train_acc_history] the values the tester returned on the test set
    and then on the training set. *)
Theorem train_and_test_model_histories {F : Framework}
    (model : module) (criterion0 : criterion)
    (test_model_fn : module -> tensor -> tensor -> M (world heap_t) tensor)
    (input target test_input test_target : tensor) (nb_epochs : Z) (lr : Q)
    (w w' : world heap_t) (loss_history train_acc_history
     test_acc_history : list tensor) :
  0 <= nb_epochs ->
  train_and_test_model model criterion0 test_model_fn
    (input, target, test_input, test_target) nb_epochs lr w
    = (Return (loss_history, train_acc_history, test_acc_history), w') ->
  Z.of_nat (length loss_history) = nb_epochs /\
  Z.of_nat (length train_acc_history) = nb_epochs /\
  Z.of_nat (length test_acc_history) = nb_epochs /\
  exists (optimizer0 : optimizer) (ws : nat -> world heap_t),
    SGD model lr
      (with_line (mkWorld false (stdout w) (heap w))
         (nl ++ "Working with custom DL")%string)
    = (Return optimizer0, ws 0%nat) /\
    ws (Z.to_nat nb_epochs) = w' /\
    forall e : nat, Z.of_nat e < nb_epochs ->
      train_and_test_epoch model criterion0 test_model_fn
        (input, target, test_input, test_target) optimizer0
        (Z.of_nat e)
        (firstn e loss_history, firstn e test_acc_history,
         firstn e train_acc_history) (ws e)
      = (Return (firstn (Datatypes.S e) loss_history,
                 firstn (Datatypes.S e) test_acc_history,
                 firstn (Datatypes.S e) train_acc_history),
         ws (Datatypes.S e)) /\
      exists output loss test_acc train_acc w1 w2 w3 w4 w5,
        zero_grad optimizer0 (ws e) = (Return tt, w1) /\
        call_module model input w1 = (Return output, w2) /\
        call_criterion criterion0 output target w2 = (Return loss, w3) /\
        test_model_fn model test_input test_target w3
        = (Return test_acc, w4) /\
        test_model_fn model input target w4 = (Return train_acc, w5) /\
        nth_error loss_history e = Some loss /\
        nth_error test_acc_history e = Some test_acc /\
        nth_error train_acc_history e = Some train_acc.
Proof.
  intros Hn H. unfold train_and_test_model in H.
  mstep_as H u0 s0 E0. mstep_as H u1 s1 Ep. mstep_as H optimizer0 s2 E1.
  mstep_as H h s3 E2. destruct h as [[lh teh] trh].
  apply ret_inv in H. destruct H as [H ->]. inversion H; subst. clear H.
  unfold set_grad_enabled in E0. inversion E0; subst s0. clear E0.
  unfold print in Ep. inversion Ep; subst s1. clear Ep.
  unfold range in E2.
  apply (@for_in_histories _ _ _
           (fun e lh teh trh s h' s' =>
              @train_and_test_epoch_appends F model criterion0 test_model_fn
                (input, target, test_input, test_target) optimizer0
                e lh teh trh s h' s')) in E2;
    try reflexivity.
  destruct E2 as (N1 & N2 & N3 & _ & _ & _ & ws & W0 & W1 & Hws).
  simpl in N1, N2, N3, W0, W1.
  repeat split; try lia.
  exists optimizer0, ws. split; [rewrite W0; exact E1|].
  split; [exact W1|].
  intros e He.
  assert (Hrun := Hws e ltac:(lia)).
  split; [exact Hrun|].
  pose proof Hrun as Hrec. apply train_and_test_epoch_records in Hrec.
  destruct Hrec
    as (output & loss & test_acc & train_acc & w1 & w2 & w3 & w4 & w5
        & Z1 & Z2 & Z3 & Z4 & Z5 & A1 & A2 & A3).
  exists output, loss, test_acc, train_acc, w1, w2, w3, w4, w5.
  repeat (split; [assumption|]).
  assert (Hlen : forall l : list tensor,
             length l = Z.to_nat nb_epochs -> length (firstn e l) = e)
    by (intros l Hl; rewrite length_firstn; lia).
  repeat split.
  - exact (@nth_error_firstn_snoc _ _ _ _ _ (Hlen _ N1) A1).
  - exact (@nth_error_firstn_snoc _ _ _ _ _ (Hlen _ N2) A2).
  - exact (@nth_error_firstn_snoc _ _ _ _ _ (Hlen _ N3) A3).
Qed.

(** The same for the loop on the reference framework. *)
Lemma train_and_test_model_torch_histories {F : Framework}
    (model : module) (criterion0 : criterion)
    (test_model_fn : module -> tensor -> tensor -> M (world heap_t) tensor)
    (data : tensor * tensor * tensor * tensor) (nb_epochs : Z) (lr : Q)
    (w w' : world heap_t) (loss_history train_acc_history
     test_acc_history : list tensor) :
  0 <= nb_epochs ->
  train_and_test_model_torch model criterion0 test_model_fn data nb_epochs
    lr w
    = (Return (loss_history, train_acc_history, test_acc_history), w') ->
  Z.of_nat (length loss_history) = nb_epochs /\
  Z.of_nat (length train_acc_history) = nb_epochs /\
  Z.of_nat (length test_acc_history) = nb_epochs.
Proof.
  intros Hn H. unfold train_and_test_model_torch in H.
  mstep H. mstep H. mstep H. mstep_as H optimizer0 s3 E2.
  mstep_as H h s4 E3. destruct h as [[lh teh] trh].
  mstep H. apply ret_inv in H. destruct H as [H _]. inversion H; subst.
  unfold range in E3.
  apply (@for_in_histories _ _ _
           (fun e lh teh trh s h' s' =>
              @train_and_test_epoch_torch_appends F model criterion0
                test_model_fn data optimizer0 e lh teh trh s h' s')) in E3;
    try reflexivity.
  destruct E3 as (N1 & N2 & N3 & _). simpl in N1, N2, N3. lia.
Qed.

Lemma train_and_test_model_histories_witness :
  exists lh trh teh w',
    @train_and_test_model Run.lib Run.model Run.bce (@test_model_bce Run.lib)
      Run.batch 3 (1 # 100)%Q Run.ready = (Return (lh, trh, teh), w') /\
    Z.of_nat (length lh) = 3 /\ Z.of_nat (length trh) = 3 /\
    Z.of_nat (length teh) = 3 /\
    forall e : nat, (e < 3)%nat ->
      exists output loss test_acc train_acc w1 w2 w3 w4 w5,
        @call_module Run.lib Run.model (fst (fst (fst Run.batch))) w1
        = (Return output, w2) /\
        @call_criterion Run.lib Run.bce output (snd (fst (fst Run.batch))) w2
        = (Return loss, w3) /\
        @test_model_bce Run.lib Run.model (snd (fst Run.batch))
          (snd Run.batch) w3 = (Return test_acc, w4) /\
        @test_model_bce Run.lib Run.model (fst (fst (fst Run.batch)))
          (snd (fst (fst Run.batch))) w4 = (Return train_acc, w5) /\
        nth_error lh e = Some loss /\
        nth_error teh e = Some test_acc /\
        nth_error trh e = Some train_acc.
Proof.
  destruct (@train_and_test_model Run.lib Run.model Run.bce
              (@test_model_bce Run.lib) Run.batch 3 (1 # 100)%Q Run.ready)
    as [[[[lh trh] teh]|e] w'] eqn:E.
  - exists lh, trh, teh, w'. split; [reflexivity|].
    destruct (@train_and_test_model_histories Run.lib Run.model Run.bce
                (@test_model_bce Run.lib)
                (fst (fst (fst Run.batch))) (snd (fst (fst Run.batch)))
                (snd (fst Run.batch)) (snd Run.batch) 3 (1 # 100)%Q
                Run.ready w' lh trh teh)
      as (N1 & N2 & N3 & optimizer0 & ws & _ & _ & Hws).
    + lia.
    + exact E.
    + repeat (split; [assumption|]).
      intros e He.
      destruct (Hws e ltac:(lia))
        as (_ & output & loss & test_acc & train_acc & w1 & w2 & w3 & w4 & w5
            & _ & Z2 & Z3 & Z4 & Z5 & A1 & A2 & A3).
      exists output, loss, test_acc, train_acc, w1, w2, w3, w4, w5.
      repeat (split; [assumption|]). assumption.
  - vm_compute in E. discriminate.
Defined.

(** ** The negative tests *)

Lemma try_except_cases {H A} (guarded : M (world H) A) (w0 : world H) :
  catches_only_AssertionError guarded w0
    (try_except_AssertionError (_ <- guarded ;; print uncorrect)
       (fun error => print error) w0).
Proof.
  unfold catches_only_AssertionError, try_except_AssertionError, bind.
  repeat split.
  - intros msg w1 ->. reflexivity.
  - intros a w1 ->. reflexivity.
  - intros e w1 -> He. destruct e; try reflexivity. discriminate.
Qed.

(** C7.  In each of the three negative tests, once the two opening lines
    are printed and the objects built outside [try] exist: if the guarded
    call raises an [AssertionError], the test prints its message and
    returns; if the guarded call returns, the test prints "Uncorrect
    behavior, error should have been thrown." and returns; if the guarded
    call raises an error of another type, the test ends with that error,
    in the state the call left. *)
Theorem negative_tests_catch_only_AssertionError {F : Framework}
    (w : world heap_t) :
  catches_only_AssertionError two_unnamed_sigmoid
    (announced w rule
       "Testing assertion error with multiple unnamed parameterless modules.")
    (test_assertion_error_with_multiple_unnamed_sigmoid w) /\
  (forall model w0,
      Linear "fc1" 2 3
        (announced w rule
           "Testing assertion error when calling backward before any forward pass")
        = (Return model, w0) ->
      catches_only_AssertionError (module_backward model None) w0
        (test_assertion_error_when_calling_backward_first w)) /\
  (forall model criterion0 data wa wb w0,
      no_final_sigmoid
        (announced w rule
           "Testing assertion error when using BCELoss without final sigmoid layer.")
        = (Return model, wa) ->
      BCELoss wa = (Return criterion0, wb) ->
      load_mock_test_data load_data_p2 wb = (Return data, w0) ->
      catches_only_AssertionError
        (train_and_test_model model criterion0 test_model_bce data 301
           (1 # 1000)%Q) w0
        (test_assertion_error_without_sigmoid_before_BCELoss w)).
Proof.
  split; [|split].
  - pose proof (try_except_cases two_unnamed_sigmoid
                  (announced w rule
                     "Testing assertion error with multiple unnamed parameterless modules."))
      as (Hc & Hr & Hp).
    change (test_assertion_error_with_multiple_unnamed_sigmoid w)
      with (bind (try_except_AssertionError
                    (_ <- two_unnamed_sigmoid ;; print uncorrect)
                    (fun error => print error))
                 (fun _ => ret tt)
                 (announced w rule
                    "Testing assertion error with multiple unnamed parameterless modules.")).
    repeat split.
    + intros msg w1 Hg. now rewrite (bind_Return _ _ _ (Hc _ _ Hg)).
    + intros a w1 Hg. now rewrite (bind_Return _ _ _ (Hr _ _ Hg)).
    + intros e w1 Hg He. now rewrite (bind_Raise _ _ _ (Hp _ _ Hg He)).
  - intros model w0 Hmodel.
    change (test_assertion_error_when_calling_backward_first w)
      with (bind (Linear "fc1" 2 3)
                 (fun model =>
                    try_except_AssertionError
                      (_ <- module_backward model None ;; print uncorrect)
                      (fun error => print error))
                 (announced w rule
                    "Testing assertion error when calling backward before any forward pass")).
    rewrite (bind_Return _ _ _ Hmodel).
    apply try_except_cases.
  - intros model criterion0 data wa wb w0 Hmodel Hcrit Hdata.
    change (test_assertion_error_without_sigmoid_before_BCELoss w)
      with (bind no_final_sigmoid
                 (fun model =>
                    criterion0 <- BCELoss ;;
                    data <- load_mock_test_data load_data_p2 ;;
                    try_except_AssertionError
                      (_ <- train_and_test_model model criterion0
                              test_model_bce data 301 (1 # 1000)%Q ;;
                       print uncorrect)
                      (fun error => print error))
                 (announced w rule
                    "Testing assertion error when using BCELoss without final sigmoid layer.")).
    rewrite (bind_Return _ _ _ Hmodel), (bind_Return _ _ _ Hcrit),
      (bind_Return _ _ _ Hdata).
    apply try_except_cases.
Qed.

Lemma negative_tests_catch_only_AssertionError_witness :
  (exists w1,
      @two_unnamed_sigmoid (Scripted.lib (Raise (AssertionError "boom")) (Return tt))
        (announced Scripted.start rule
           "Testing assertion error with multiple unnamed parameterless modules.")
        = (Raise (AssertionError "boom"), w1) /\
      @test_assertion_error_with_multiple_unnamed_sigmoid
        (Scripted.lib (Raise (AssertionError "boom")) (Return tt)) Scripted.start
        = (Return tt, with_line w1 "boom")) /\
  (exists w1,
      @module_backward (Scripted.lib (Return tt) (Return tt)) tt None
        (announced Scripted.start rule
           "Testing assertion error when calling backward before any forward pass")
        = (Return tt, w1) /\
      @test_assertion_error_when_calling_backward_first
        (Scripted.lib (Return tt) (Return tt)) Scripted.start
        = (Return tt, with_line w1 uncorrect)) /\
  (exists w1,
      @train_and_test_model (Scripted.lib (Return tt) (Raise (OSError "disk"))) tt tt
        (@test_model_bce (Scripted.lib (Return tt) (Raise (OSError "disk"))))
        (tt, tt, tt, tt) 301 (1 # 1000)%Q
        (announced Scripted.start rule
           "Testing assertion error when using BCELoss without final sigmoid layer.")
        = (Raise (OSError "disk"), w1) /\
      @test_assertion_error_without_sigmoid_before_BCELoss
        (Scripted.lib (Return tt) (Raise (OSError "disk"))) Scripted.start
        = (Raise (OSError "disk"), w1)).
Proof.
  split; [|split].
  - pose proof (@negative_tests_catch_only_AssertionError
                  (Scripted.lib (Raise (AssertionError "boom")) (Return tt))
                  Scripted.start) as (H1 & _ & _).
    unfold catches_only_AssertionError in H1. destruct H1 as (Hc & _ & _).
    eexists. split; [reflexivity|]. apply Hc. reflexivity.
  - pose proof (@negative_tests_catch_only_AssertionError
                  (Scripted.lib (Return tt) (Return tt)) Scripted.start) as (_ & H2 & _).
    specialize (H2 tt _ eq_refl).
    unfold catches_only_AssertionError in H2. destruct H2 as (_ & Hr & _).
    eexists. split; [reflexivity|]. apply (Hr tt). reflexivity.
  - pose proof (@negative_tests_catch_only_AssertionError
                  (Scripted.lib (Return tt) (Raise (OSError "disk")))
                  Scripted.start) as (_ & _ & H3).
    specialize (H3 tt tt (tt, tt, tt, tt) _ _ _ eq_refl eq_refl eq_refl).
    unfold catches_only_AssertionError in H3. destruct H3 as (_ & _ & Hp).
    eexists. split; [vm_compute; reflexivity|].
    apply Hp; [vm_compute; reflexivity | reflexivity].
Defined.

(** ** Gradient tracking *)

Lemma set_grad_enabled_run {H} (b : bool) (w : world H) :
  set_grad_enabled b w = (Return tt, mkWorld b (stdout w) (heap w)).
Proof. reflexivity. Qed.

Lemma print_run {H} (s : string) (w : world H) :
  print s w = (Return tt, with_line w s).
Proof. reflexivity. Qed.

(** A [print] or a [set_grad_enabled] that returned: replace the state it
    left by what it is. *)
Ltac known_step E :=
  first [rewrite set_grad_enabled_run in E | rewrite print_run in E];
  inversion E; subst; clear E.

(** C9.  [train_custom_and_torch] and [train_and_test_model_torch] enable
    the gradient tracking of the reference framework right before their
    reference-framework part and disable it right after it.  When
    [train_custom_and_torch] returns, its loop on the hand-built library
    ran from the state [SGD(model, lr)] left, in which the function had not
    touched the flag; the reference-framework part ([parameters()],
    [torch.optim.SGD], the loop) then ran from the state that loop left
    with tracking enabled and the line "Working with PyTorch" printed; and
    the state at return is the one the reference loop left with tracking
    disabled.  When [train_and_test_model_torch] returns, its
    reference-framework part ran from the state of the call with tracking
    enabled and the line printed, and the state at return is the one its
    loop left with tracking disabled.  Hence tracking is disabled whenever
    either function returns. *)
Theorem grad_tracking_enabled_for_reference_part {F : Framework} :
  (forall model criterion0 model_torch criterion_torch nb_epochs lr w u w',
      train_custom_and_torch model criterion0 model_torch criterion_torch
        nb_epochs lr w = (Return u, w') ->
      (exists input target test_input test_target w0 optimizer0 w1 w2
              ps w3 optimizer_torch w4 w5,
          load_mock_test_data load_data_p2 w
          = (Return (input, target, test_input, test_target), w0) /\
          SGD model lr (with_line w0 (nl ++ "Working with custom DL")%string)
          = (Return optimizer0, w1) /\
          for_in (range nb_epochs)
            (train_epoch model criterion0 input target optimizer0) tt w1
          = (Return tt, w2) /\
          parameters model_torch
            (with_line (mkWorld true (stdout w2) (heap w2))
               (nl ++ "Working with PyTorch")%string)
          = (Return ps, w3) /\
          torch_optim_SGD ps lr w3 = (Return optimizer_torch, w4) /\
          for_in (range nb_epochs)
            (train_epoch_torch model_torch criterion_torch input target
               optimizer_torch) tt w4
          = (Return tt, w5) /\
          w' = mkWorld false (stdout w5) (heap w5)) /\
      grad_enabled w' = false) /\
  (forall model criterion0 test_model_fn data nb_epochs lr w
          loss_history train_acc_history test_acc_history w',
      train_and_test_model_torch model criterion0 test_model_fn data
        nb_epochs lr w
      = (Return (loss_history, train_acc_history, test_acc_history), w') ->
      (exists ps w1 optimizer0 w2 w3,
          parameters model
            (with_line (mkWorld true (stdout w) (heap w))
               (nl ++ "Working with PyTorch")%string)
          = (Return ps, w1) /\
          torch_optim_SGD ps lr w1 = (Return optimizer0, w2) /\
          for_in (range nb_epochs)
            (train_and_test_epoch_torch model criterion0 test_model_fn data
               optimizer0) ([], [], []) w2
          = (Return (loss_history, test_acc_history, train_acc_history),
             w3) /\
          w' = mkWorld false (stdout w3) (heap w3)) /\
      grad_enabled w' = false).
Proof.
  split.
  - intros model criterion0 model_torch criterion_torch nb_epochs lr w u w' H.
    unfold train_custom_and_torch in H.
    mstep_as H d w0 E0. destruct d as [[[input target] test_input] test_target].
    mstep_as H u1 s1 E1. known_step E1.
    mstep_as H optimizer0 w1 E2. mstep_as H u2 w2 E3.
    mstep_as H u3 s3 E4. known_step E4.
    mstep_as H u4 s4 E5. known_step E5.
    mstep_as H ps w3 E6. mstep_as H optimizer_torch w4 E7.
    mstep_as H u5 w5 E8. mstep_as H u6 s6 E9. known_step E9.
    apply ret_inv in H. destruct H as [_ ->]. destruct u2, u5.
    split; [|reflexivity].
    exists input, target, test_input, test_target, w0, optimizer0, w1, w2,
      ps, w3, optimizer_torch, w4, w5.
    repeat (split; [assumption|]). reflexivity.
  - intros model criterion0 test_model_fn data nb_epochs lr w
      loss_history train_acc_history test_acc_history w' H.
    unfold train_and_test_model_torch in H.
    mstep_as H u0 s0 E0. known_step E0.
    mstep_as H u1 s1 E1. known_step E1.
    mstep_as H ps w1 E2. mstep_as H optimizer0 w2 E3.
    mstep_as H h w3 E4. destruct h as [[lh teh] trh].
    mstep_as H u2 s2 E5. known_step E5.
    apply ret_inv in H. destruct H as [H ->]. inversion H; subst. clear H.
    split; [|reflexivity].
    exists ps, w1, optimizer0, w2, w3.
    repeat (split; [assumption|]). reflexivity.
Qed.

Lemma grad_tracking_enabled_for_reference_part_witness :
  (exists w' w2 w5,
      @train_custom_and_torch (Scripted.lib (Return tt) (Return tt)) tt tt tt tt 301
        (1 # 100)%Q Scripted.start = (Return tt, w') /\
      for_in (range 301)
        (@train_epoch (Scripted.lib (Return tt) (Return tt)) tt tt tt tt tt) tt
        (with_line Scripted.start (nl ++ "Working with custom DL")%string)
      = (Return tt, w2) /\
      for_in (range 301)
        (@train_epoch_torch (Scripted.lib (Return tt) (Return tt)) tt tt tt tt
           tt) tt
        (with_line (mkWorld true (stdout w2) (heap w2))
           (nl ++ "Working with PyTorch")%string)
      = (Return tt, w5) /\
      w' = mkWorld false (stdout w5) (heap w5) /\
      grad_enabled w' = false) /\
  (exists lh trh teh w' w3,
      @train_and_test_model_torch (Scripted.lib (Return tt) (Return tt)) tt tt
        (@test_model_bceWithLogits (Scripted.lib (Return tt) (Return tt)))
        (tt, tt, tt, tt) 300 (1 # 100)%Q Scripted.start
      = (Return (lh, trh, teh), w') /\
      for_in (range 300)
        (@train_and_test_epoch_torch (Scripted.lib (Return tt) (Return tt))
           tt tt
           (@test_model_bceWithLogits (Scripted.lib (Return tt) (Return tt)))
           (tt, tt, tt, tt) tt) ([], [], [])
        (with_line (mkWorld true [] tt) (nl ++ "Working with PyTorch")%string)
      = (Return (lh, teh, trh), w3) /\
      w' = mkWorld false (stdout w3) (heap w3) /\
      grad_enabled w' = false).
Proof.
  pose proof (@grad_tracking_enabled_for_reference_part
                (Scripted.lib (Return tt) (Return tt))) as (H1 & H2).
  split.
  - destruct (@train_custom_and_torch (Scripted.lib (Return tt) (Return tt))
                tt tt tt tt 301 (1 # 100)%Q Scripted.start)
      as [[[]|e] w'] eqn:E.
    + destruct (H1 _ _ _ _ _ _ _ _ _ E)
        as ((input & target & test_input & test_target & w0 & optimizer0
             & w1 & w2 & ps & w3 & optimizer_torch & w4 & w5
             & Z0 & Z1 & Z2 & Z3 & Z4 & Z5 & Z6) & Hoff).
      exists w', w2, w5.
      destruct input, target, optimizer0, ps, optimizer_torch.
      inversion Z0; subst w0. inversion Z1; subst w1.
      inversion Z3; subst w3. inversion Z4; subst w4.
      repeat (split; [assumption || reflexivity|]). exact Hoff.
    + vm_compute in E. discriminate.
  - destruct (@train_and_test_model_torch
                (Scripted.lib (Return tt) (Return tt)) tt tt
                (@test_model_bceWithLogits
                   (Scripted.lib (Return tt) (Return tt)))
                (tt, tt, tt, tt) 300 (1 # 100)%Q Scripted.start)
      as [[[[lh trh] teh]|e] w'] eqn:E.
    + destruct (H2 _ _ _ _ _ _ _ _ _ _ _ E)
        as ((ps & w1 & optimizer0 & w2 & w3 & Z0 & Z1 & Z2 & Z3) & Hoff).
      exists lh, trh, teh, w', w3.
      destruct ps, optimizer0.
      inversion Z0; subst w1. inversion Z1; subst w2.
      repeat (split; [assumption || reflexivity|]). exact Hoff.
    + vm_compute in E. discriminate.
Defined.

(** C9 does not extend to errors: neither function has a [try] around its
    reference-framework part.  With a library whose [loss.backward()]
    raises, both functions are entered with tracking disabled and end by
    that error in the first epoch of the reference loop, with tracking
    left enabled. *)
Lemma grad_tracking_left_enabled_by_error :
  grad_enabled Reference.start = false /\
  (exists w',
      @train_custom_and_torch (Reference.lib (Raise Reference.no_grad))
        tt tt tt tt 301 (1 # 100)%Q Reference.start
      = (Raise Reference.no_grad, w') /\
      grad_enabled w' = true) /\
  (exists w',
      @train_and_test_model_torch (Reference.lib (Raise Reference.no_grad))
        tt tt
        (@test_model_bceWithLogits (Reference.lib (Raise Reference.no_grad)))
        (tt, tt, tt, tt) 300 (1 # 100)%Q Reference.start
      = (Raise Reference.no_grad, w') /\
      grad_enabled w' = true).
Proof.
  split; [reflexivity|].
  split; eexists; (split; [vm_compute; reflexivity | reflexivity]).
Qed.

(** ** The training mode after the accuracy testers *)

Section Modes.
Context {F : Framework}.

(** What [train()] is for: the library decides what "training mode"
    means, and [train()] establishes it. *)
Variable training_mode : module -> world heap_t -> Prop.
Hypothesis train_sets_training_mode :
  forall m w u w', module_train m w = (Return u, w') -> training_mode m w'.

(** C8.  When [test_model_bce] or [test_model_bceWithLogits] returns, it
    has called [model.eval()] first and run the forward pass in the state
    that call left, the state it returns in is the one in which
    [model.train()] has just returned, and so the model is in training
    mode. *)
Theorem testers_leave_training_mode
    (model : module) (test_input test_target : tensor)
    (w w' : world heap_t) (acc : tensor) :
  test_model_bce model test_input test_target w = (Return acc, w') \/
  test_model_bceWithLogits model test_input test_target w = (Return acc, w') ->
  (exists w1 output w2 w3,
      module_eval model w = (Return tt, w1) /\
      call_module model test_input w1 = (Return output, w2) /\
      module_train model w3 = (Return tt, w')) /\
  training_mode model w'.
Proof.
  intros [H|H].
  - unfold test_model_bce in H.
    mstep_as H u1 w1 Eeval. mstep_as H output w2 Ecall.
    mstep_as H p w3 Ege. mstep_as H prediction w4 Eflat. mstep_as H a w5 Eacc.
    mstep_as H u2 w6 Etrain. apply ret_inv in H. destruct H as [_ ->].
    destruct u1, u2. split; [|now apply train_sets_training_mode in Etrain].
    now exists w1, output, w2, w5.
  - unfold test_model_bceWithLogits in H.
    mstep_as H u1 w1 Eeval. mstep_as H output w2 Ecall.
    mstep_as H sg w3 Esig. mstep_as H probs w4 Eprobs.
    mstep_as H p w5 Ege. mstep_as H prediction w6 Eflat. mstep_as H a w7 Eacc.
    mstep_as H u2 w8 Etrain. apply ret_inv in H. destruct H as [_ ->].
    destruct u1, u2. split; [|now apply train_sets_training_mode in Etrain].
    now exists w1, output, w2, w7.
Qed.
End Modes.

(** ** The store of the library *)

Lemma nth_error_update_eq {A} (l : list A) (n : nat) (x y : A) :
  nth_error l n = Some x -> nth_error (update n y l) n = Some y.
Proof.
  revert n. induction l as [|z l IH]; intros [|n] H; simpl in *;
    try discriminate; auto.
Qed.

Lemma nth_error_update_neq {A} (l : list A) (n m : nat) (y : A) :
  n <> m -> nth_error (update n y l) m = nth_error l m.
Proof.
  revert n m. induction l as [|z l IH]; intros [|n] [|m] H; simpl;
    try reflexivity; try congruence.
  apply IH. congruence.
Qed.

Lemma update_same {A} (l : list A) (n : nat) (x : A) :
  nth_error l n = Some x -> update n x l = l.
Proof.
  revert n. induction l as [|z l IH]; intros [|n] H; simpl in *;
    try discriminate; try congruence.
  f_equal. auto.
Qed.

Lemma nth_error_snoc {A} (l : list A) (x : A) :
  nth_error (l ++ [x]) (length l) = Some x.
Proof.
  rewrite nth_error_app2 by lia. now rewrite Nat.sub_diag.
Qed.

Lemma nth_error_snoc_old {A} (l : list A) (x y : A) (n : nat) :
  nth_error l n = Some y -> nth_error (l ++ [x]) n = Some y.
Proof.
  intros H. rewrite nth_error_app1; auto.
  apply nth_error_Some. congruence.
Qed.


Lemma last_opt_cons {A} (x : A) (l : list A) :
  last_opt (x :: l) =
  match last_opt l with Some y => Some y | None => Some x end.
Proof.
  unfold last_opt. simpl. destruct (rev l); reflexivity.
Qed.

(** ** The module library: handles, modes *)

Section Objects.
Variables scalar params : Type.
Local Abbreviation W := (world (SpecLib.store scalar params)).
Implicit Types (w : W) (o : SpecLib.module_obj scalar params).

Lemma get_module_at w r o :
  SpecLib.object_at w r = Some o -> SpecLib.get_module r w = (Return o, w).
Proof.
  unfold SpecLib.object_at, SpecLib.get_module, SpecLib.get_heap, bind.
  now intros ->.
Qed.

Lemma get_module_inv w r o w' :
  SpecLib.get_module r w = (Return o, w') ->
  w' = w /\ SpecLib.object_at w r = Some o.
Proof.
  unfold SpecLib.object_at, SpecLib.get_module, SpecLib.get_heap, bind.
  destruct (nth_error (SpecLib.modules (heap w)) r); intros E;
    inversion E; auto.
Qed.

Lemma set_module_run w r o :
  SpecLib.set_module r o w = (Return tt, SpecLib.set_object w r o).
Proof. reflexivity. Qed.

Lemma object_at_set_object_eq w r o o' :
  SpecLib.object_at w r = Some o ->
  SpecLib.object_at (SpecLib.set_object w r o') r = Some o'.
Proof. unfold SpecLib.object_at. simpl. apply nth_error_update_eq. Qed.

Lemma object_at_set_object_neq w r r' o' :
  r <> r' ->
  SpecLib.object_at (SpecLib.set_object w r o') r' = SpecLib.object_at w r'.
Proof. unfold SpecLib.object_at. simpl. apply nth_error_update_neq. Qed.

Lemma set_object_same w r o :
  SpecLib.object_at w r = Some o -> SpecLib.set_object w r o = w.
Proof.
  unfold SpecLib.object_at, SpecLib.set_object. intros H.
  rewrite (update_same _ _ H). destruct w as [g out [ms cs os]]. reflexivity.
Qed.

Lemma in_training_set_mode o :
  SpecLib.in_training (SpecLib.set_mode true o) = true.
Proof.
  destruct o as [l|mode saved cs]; simpl; [reflexivity|].
  induction cs; simpl; auto.
Qed.

Lemma in_evaluation_set_mode o :
  SpecLib.in_evaluation (SpecLib.set_mode false o) = true.
Proof.
  destruct o as [l|mode saved cs]; simpl; [reflexivity|].
  induction cs; simpl; auto.
Qed.

Lemma saved_state_set_mode b o :
  SpecLib.saved_state (SpecLib.set_mode b o) = SpecLib.saved_state o.
Proof.
  destruct o as [l|mode saved cs]; unfold SpecLib.saved_state; simpl;
    [reflexivity|].
  f_equal. rewrite map_map. reflexivity.
Qed.

Lemma module_eval_run w m o :
  SpecLib.object_at w m = Some o ->
  SpecLib.module_eval m w
  = (Return tt, SpecLib.set_object w m (SpecLib.set_mode false o)).
Proof.
  intros H. unfold SpecLib.module_eval.
  now rewrite (bind_Return _ _ _ (get_module_at _ _ H)).
Qed.

Lemma module_train_run w m o :
  SpecLib.object_at w m = Some o ->
  SpecLib.module_train m w
  = (Return tt, SpecLib.set_object w m (SpecLib.set_mode true o)).
Proof.
  intros H. unfold SpecLib.module_train.
  now rewrite (bind_Return _ _ _ (get_module_at _ _ H)).
Qed.

(** [train()] puts the model, with its layers, in training mode. *)
Lemma module_train_is_training m w u w' :
  SpecLib.module_train m w = (Return u, w') -> SpecLib.is_training m w'.
Proof.
  intros H. unfold SpecLib.module_train in H.
  mstep_as H o s E. apply get_module_inv in E. destruct E as [-> Ho].
  rewrite set_module_run in H. inversion H; subst.
  exists (SpecLib.set_mode true o). split.
  - now apply object_at_set_object_eq with o.
  - apply in_training_set_mode.
Qed.
End Objects.

Lemma testers_leave_training_mode_witness :
  exists acc w',
    @test_model_bce Run.lib Run.model (fst (fst (fst Run.batch)))
      (snd (fst (fst Run.batch))) Run.ready = (Return acc, w') /\
    SpecLib.is_training Run.model w'.
Proof.
  destruct (@test_model_bce Run.lib Run.model (fst (fst (fst Run.batch)))
              (snd (fst (fst Run.batch))) Run.ready) as [[acc|e] w'] eqn:E.
  - exists acc, w'. split; [reflexivity|].
    apply (@testers_leave_training_mode Run.lib
             (@SpecLib.is_training Z unit)
             (@module_train_is_training Z unit)
             Run.model (fst (fst (fst Run.batch)))
             (snd (fst (fst Run.batch))) Run.ready w' acc).
    left. exact E.
  - vm_compute in E. discriminate.
Defined.

(** C8 does not extend to a model that enters in evaluation mode: the
    testers end with [model.train()] whatever the mode was on entry, so
    such a model leaves in training mode and its mode is not restored. *)
Lemma testers_do_not_restore_evaluation_mode :
  (exists o,
      SpecLib.object_at Run.evaluated Run.model = Some o /\
      SpecLib.in_evaluation o = true /\ SpecLib.in_training o = false) /\
  (exists acc w' o',
      @test_model_bce Run.lib Run.model (snd (fst Run.batch)) (snd Run.batch)
        Run.evaluated = (Return acc, w') /\
      SpecLib.object_at w' Run.model = Some o' /\
      SpecLib.in_evaluation o' = false /\ SpecLib.in_training o' = true) /\
  (exists acc w' o',
      @test_model_bceWithLogits Run.lib Run.model (snd (fst Run.batch))
        (snd Run.batch) Run.evaluated = (Return acc, w') /\
      SpecLib.object_at w' Run.model = Some o' /\
      SpecLib.in_evaluation o' = false /\ SpecLib.in_training o' = true).
Proof.
  split; [|split].
  - eexists. split; [reflexivity|]. split; reflexivity.
  - eexists _, _, _. split; [vm_compute; reflexivity|].
    split; [reflexivity|]. split; reflexivity.
  - eexists _, _, _. split; [vm_compute; reflexivity|].
    split; [reflexivity|]. split; reflexivity.
Qed.

(** ** The module library: forward, backward, losses *)

Section Library.
Variables scalar params : Type.
Local Abbreviation data := (Torch.tensor scalar).
Variable k_init : string -> SpecLib.kind -> params.
Variable k_forward : SpecLib.kind -> params -> data -> data.
Variable k_save : SpecLib.kind -> params -> data -> data -> data.
Variable k_backward : SpecLib.kind -> params -> data -> data -> data * params.
Variable k_zero_grad : params -> params.
Variable k_step : Q -> params -> params.
Variable k_loss : SpecLib.loss_kind -> data -> data -> data.
Variable k_loss_backward : SpecLib.loss_kind -> data -> data -> data.
Variable k_ge_half : data -> outcome data.
Variable k_type_byte : data -> outcome data.
Variable k_eq : data -> data -> outcome data.
Variable k_where : data -> outcome data.
Variable k_sum : data -> outcome data.
Variable k_div : data -> Z -> outcome data.
Variable k_str : data -> outcome string.
Variable files : outcome (data * data * data * data).

Local Abbreviation L :=
  (SpecLib.framework k_init k_forward k_save k_backward k_zero_grad k_step
     k_loss k_loss_backward k_ge_half k_type_byte k_eq k_where k_sum k_div
     k_str files).
Local Abbreviation W := (world (SpecLib.store scalar params)).
Implicit Types (w : W) (o : SpecLib.module_obj scalar params)
  (l : SpecLib.layer scalar params) (x : SpecLib.tensor scalar).

(** *** Forward in evaluation mode *)

Lemma layer_forward_eval l x :
  SpecLib.training l = false ->
  fst (SpecLib.layer_forward k_forward k_save l x) = l.
Proof. unfold SpecLib.layer_forward. now intros ->. Qed.

Lemma children_forward_eval (cs : list (SpecLib.layer scalar params)) :
  forall x,
    forallb (fun c => negb (SpecLib.training c)) cs = true ->
    fst (SpecLib.children_forward k_forward k_save cs x) = cs.
Proof.
  induction cs as [|c cs IH]; intros x H; [reflexivity|].
  simpl in H. apply andb_prop in H. destruct H as [Hc Hcs].
  apply negb_true_iff in Hc.
  cbn [SpecLib.children_forward].
  pose proof (layer_forward_eval c x Hc) as Ec.
  destruct (SpecLib.layer_forward k_forward k_save c x) as [c' y].
  simpl in Ec. subst c'.
  specialize (IH y Hcs).
  destruct (SpecLib.children_forward k_forward k_save cs y) as [cs' z].
  simpl in *. now subst cs'.
Qed.

Lemma module_forward_eval o x :
  SpecLib.in_evaluation o = true ->
  fst (SpecLib.module_forward k_forward k_save o x) = o.
Proof.
  destruct o as [l|mode saved cs];
    cbn [SpecLib.module_forward SpecLib.in_evaluation]; intros H.
  - apply negb_true_iff in H.
    pose proof (layer_forward_eval l x H) as E.
    destruct (SpecLib.layer_forward k_forward k_save l x) as [l' y].
    simpl in *. now subst.
  - apply andb_prop in H. destruct H as [Hm Hcs].
    apply negb_true_iff in Hm. subst mode.
    pose proof (children_forward_eval cs x Hcs) as E.
    destruct (SpecLib.children_forward k_forward k_save cs x) as [cs' y].
    simpl in *. now subst.
Qed.

Lemma call_module_run w r o x :
  SpecLib.object_at w r = Some o ->
  SpecLib.call_module k_forward k_save r x w
  = (Return (snd (SpecLib.module_forward k_forward k_save o x)),
     SpecLib.set_object w r
       (fst (SpecLib.module_forward k_forward k_save o x))).
Proof.
  intros H. unfold SpecLib.call_module.
  rewrite (bind_Return _ _ _ (get_module_at _ _ H)).
  destruct (SpecLib.module_forward k_forward k_save o x) as [o' y].
  reflexivity.
Qed.

(** In evaluation mode the forward pass returns the output and leaves the
    world as it was. *)
Lemma call_module_in_evaluation w m o x :
  SpecLib.object_at w m = Some o ->
  SpecLib.in_evaluation o = true ->
  SpecLib.call_module k_forward k_save m x w
  = (Return (snd (SpecLib.module_forward k_forward k_save o x)), w).
Proof.
  intros Ho Heval. rewrite (call_module_run _ _ x Ho).
  now rewrite (module_forward_eval _ x Heval), (set_object_same _ _ Ho).
Qed.

(** C2.  A forward pass through a model that is in evaluation mode
    leaves the [save_for_backward] attribute of the model and of every
    module of [model._children] as it was; indeed it leaves the whole world
    as it was. *)
Theorem eval_forward_keeps_save_for_backward w m o x out w' :
  SpecLib.object_at w m = Some o ->
  SpecLib.in_evaluation o = true ->
  @call_module L m x w = (Return out, w') ->
  w' = w /\
  exists o',
    SpecLib.object_at w' m = Some o' /\
    SpecLib.saved_state o' = SpecLib.saved_state o.
Proof.
  intros Ho Heval H. simpl in H.
  rewrite (call_module_in_evaluation _ _ x Ho Heval) in H.
  inversion H; subst. split; [reflexivity|]. now exists o.
Qed.

(** [eval()] puts a model in evaluation mode and touches nothing that was
    saved, so the forward pass after it keeps every [save_for_backward];
    this is the sequence of the accuracy testers. *)
Lemma eval_then_forward_keeps_save_for_backward w m o x w1 out w2 :
  SpecLib.object_at w m = Some o ->
  @module_eval L m w = (Return tt, w1) ->
  @call_module L m x w1 = (Return out, w2) ->
  exists o',
    SpecLib.object_at w2 m = Some o' /\
    SpecLib.saved_state o' = SpecLib.saved_state o.
Proof.
  intros Ho He Hc. simpl in He. rewrite (module_eval_run _ _ Ho) in He.
  inversion He; subst w1. clear He.
  pose proof (object_at_set_object_eq w m (SpecLib.set_mode false o) Ho)
    as Ho1.
  simpl in Hc.
  rewrite (call_module_in_evaluation _ _ x Ho1 (in_evaluation_set_mode o))
    in Hc.
  inversion Hc; subst w2. clear Hc.
  exists (SpecLib.set_mode false o). split; [exact Ho1|].
  apply saved_state_set_mode.
Qed.

(** *** Construction *)

Lemma new_module_run w o :
  SpecLib.new_module o w
  = (Return (length (SpecLib.modules (heap w))), SpecLib.created w [o]).
Proof. reflexivity. Qed.

Lemma object_at_new w o :
  SpecLib.object_at (SpecLib.created w [o]) (length (SpecLib.modules (heap w)))
  = Some o.
Proof. unfold SpecLib.object_at. simpl. apply nth_error_snoc. Qed.

Lemma snocs_old (os : list (SpecLib.module_obj scalar params)) :
  forall ms r y,
    nth_error ms r = Some y -> nth_error (SpecLib.snocs ms os) r = Some y.
Proof.
  induction os as [|o os IH]; intros ms r y H; simpl; [exact H|].
  apply IH. now apply nth_error_snoc_old.
Qed.

(** The handles given to freshly created layers lead to them. *)
Lemma created_resolves w (ls : list (SpecLib.layer scalar params)) :
  forall ms,
    ms = SpecLib.modules (heap w) ->
    Forall2 (fun r l =>
               SpecLib.object_at
                 (SpecLib.created w (map (@SpecLib.Layer _ _) ls)) r
               = Some (SpecLib.Layer l))
            (SpecLib.handles_of ms (map (@SpecLib.Layer _ _) ls)) ls.
Proof.
  unfold SpecLib.object_at, SpecLib.created. simpl. intros ms ->.
  generalize (SpecLib.modules (heap w)). clear w.
  induction ls as [|l ls IH]; intros ms; simpl; constructor.
  - apply snocs_old, nth_error_snoc.
  - apply IH.
Qed.

Lemma as_layers_resolves w rs ls :
  Forall2 (fun r l => SpecLib.object_at w r = Some (SpecLib.Layer l)) rs ls ->
  SpecLib.as_layers rs w = (Return ls, w).
Proof.
  induction 1 as [|r l rs ls Hr _ IH]; [reflexivity|].
  cbn [SpecLib.as_layers].
  rewrite (bind_Return _ _ _ (get_module_at _ _ Hr)).
  now rewrite (bind_Return _ _ _ IH).
Qed.

Lemma Sequential_run w rs ls :
  Forall2 (fun r l => SpecLib.object_at w r = Some (SpecLib.Layer l)) rs ls ->
  SpecLib.Sequential rs w
  = match SpecLib.register [] ls with
    | Return children =>
        SpecLib.new_module (SpecLib.Container true None children) w
    | Raise e => (Raise e, w)
    end.
Proof.
  intros H. unfold SpecLib.Sequential.
  rewrite (bind_Return _ _ _ (@as_layers_resolves w rs ls H)).
  unfold bind at 1, lift. destruct (SpecLib.register [] ls); reflexivity.
Qed.




(** *** Backward before forward *)

Lemma module_obj_backward_before_forward o (g : option data) :
  SpecLib.own_saved o = None ->
  SpecLib.module_obj_backward k_backward o g = Raise SpecLib.before_forward.
Proof.
  destruct o as [l|mode saved cs]; simpl; intros H.
  - unfold SpecLib.layer_backward. now rewrite H.
  - now rewrite H.
Qed.

Lemma module_backward_never_forwarded w m (g : option (SpecLib.tensor scalar)) :
  SpecLib.never_forwarded w m ->
  SpecLib.module_backward k_backward m g w = (Raise SpecLib.before_forward, w).
Proof.
  intros (o & Ho & Hs). unfold SpecLib.module_backward.
  rewrite (bind_Return _ _ _ (get_module_at _ _ Ho)).
  unfold bind, lift.
  now rewrite (module_obj_backward_before_forward _ _ Hs).
Qed.

Lemma as_layers_state (rs : list nat) :
  forall w r w', SpecLib.as_layers rs w = (r, w') -> w' = w.
Proof.
  induction rs as [|h rs IH]; intros w r w' H; simpl in H.
  - now inversion H.
  - unfold bind at 1 in H.
    destruct (SpecLib.get_module h w) as [[o|e] w1] eqn:Eg.
    + apply get_module_inv in Eg. destruct Eg as [-> _].
      destruct o as [l|mode saved cs].
      * unfold bind in H.
        destruct (SpecLib.as_layers rs w) as [[ls|e] w2] eqn:Er;
          apply IH in Er; subst; now inversion H.
      * now inversion H.
    + unfold SpecLib.get_module, SpecLib.get_heap, bind in Eg.
      destruct (nth_error (SpecLib.modules (heap w)) h);
        inversion Eg; subst; now inversion H.
Qed.

(** Whatever constructor made it, a new module has saved nothing. *)
Lemma constructs_never_forwarded c w m w1 :
  SpecLib.constructs k_init c -> c w = (Return m, w1) ->
  SpecLib.never_forwarded w1 m.
Proof.
  intros Hc H.
  destruct Hc as [name n_in n_out|given|given|given|rs];
    [unfold SpecLib.Linear in H | unfold SpecLib.ReLU in H
     | unfold SpecLib.Tanh in H | unfold SpecLib.Sigmoid in H | ];
    try (rewrite new_module_run in H; inversion H; subst;
         eexists; split; [apply object_at_new | reflexivity]).
  unfold SpecLib.Sequential in H.
  mstep_as H ls s0 E0. apply as_layers_state in E0. subst s0.
  mstep_as H children s1 E1. apply lift_Return_inv in E1.
  destruct E1 as [_ ->].
  rewrite new_module_run in H. inversion H; subst.
  eexists; split; [apply object_at_new | reflexivity].
Qed.

(** Changing the mode saves nothing. *)
Lemma own_saved_set_mode b o :
  SpecLib.own_saved (SpecLib.set_mode b o) = SpecLib.own_saved o.
Proof. now destruct o. Qed.

(** C4.  [backward] on a model that no forward pass has run through
    raises an [AssertionError], whatever gradient it is given, and changes
    nothing; a module is in this state when its constructor returns; and
    the test of lines 242-250, which calls [backward(None)] on a new
    [Linear('fc1', 2, 3)], catches that error and prints its message. *)
Theorem backward_before_forward_raises :
  (forall w m g,
      SpecLib.never_forwarded w m ->
      @module_backward L m g w = (Raise SpecLib.before_forward, w)) /\
  (forall c w m w1 g,
      SpecLib.constructs k_init c -> c w = (Return m, w1) ->
      @module_backward L m g w1 = (Raise SpecLib.before_forward, w1)) /\
  (forall w,
      @test_assertion_error_when_calling_backward_first L w
      = (Return tt,
         with_line
           (SpecLib.created
              (announced w rule
                 "Testing assertion error when calling backward before any forward pass")
              [SpecLib.Layer
                 (@SpecLib.fresh_layer scalar params k_init (Some "fc1")
                    (SpecLib.KLinear 2 3))])
           "backward called before any forward pass")).
Proof.
  split; [|split].
  - intros w m g H. simpl. now apply module_backward_never_forwarded.
  - intros c w m w1 g Hc H. simpl.
    apply module_backward_never_forwarded.
    exact (@constructs_never_forwarded c w m w1 Hc H).
  - intros w.
    change (@test_assertion_error_when_calling_backward_first L w)
      with (bind (SpecLib.new_module
                    (SpecLib.Layer
                       (@SpecLib.fresh_layer scalar params k_init (Some "fc1")
                          (SpecLib.KLinear 2 3))))
                 (fun model =>
                    try_except_AssertionError
                      (_ <- SpecLib.module_backward k_backward model None ;;
                       print uncorrect)
                      (fun error => print error))
                 (announced w rule
                    "Testing assertion error when calling backward before any forward pass")).
    rewrite (bind_Return _ _ _ (new_module_run _ _)).
    unfold try_except_AssertionError.
    match goal with
    | |- context [bind (SpecLib.module_backward _ ?m None) _ ?w1] =>
        assert (Hn : SpecLib.never_forwarded w1 m)
          by (eexists; split; [apply object_at_new | reflexivity]);
        rewrite (bind_Raise _ _ _
                   (@module_backward_never_forwarded w1 m None Hn))
    end.
    reflexivity.
Qed.

(** *** [BCELoss] after a model without a final Sigmoid *)

Lemma last_opt_map {A B} (f : A -> B) (l : list A) :
  last_opt (map f l) = option_map f (last_opt l).
Proof.
  unfold last_opt. rewrite <- map_rev. now destruct (rev l).
Qed.

Lemma children_forward_origin (cs : list (SpecLib.layer scalar params)) :
  forall x,
    SpecLib.origin (snd (SpecLib.children_forward k_forward k_save cs x))
    = match last_opt cs with
      | Some c => Some (SpecLib.lkind c)
      | None => SpecLib.origin x
      end.
Proof.
  induction cs as [|c cs IH]; intros x; [reflexivity|].
  cbn [SpecLib.children_forward]. rewrite last_opt_cons.
  unfold SpecLib.layer_forward at 1.
  specialize (IH (SpecLib.mkTensor
                    (k_forward (SpecLib.lkind c) (SpecLib.weights c)
                       (SpecLib.payload x))
                    (Some (SpecLib.lkind c)))).
  destruct (SpecLib.children_forward k_forward k_save cs _) as [cs' z].
  simpl in *. rewrite IH. now destruct (last_opt cs).
Qed.

Lemma module_forward_origin o x k :
  SpecLib.final_kind o = Some k ->
  SpecLib.origin (snd (SpecLib.module_forward k_forward k_save o x)) = Some k.
Proof.
  destruct o as [l|mode saved cs]; cbn [SpecLib.module_forward SpecLib.final_kind].
  - intros H. unfold SpecLib.layer_forward. simpl. exact H.
  - intros H. pose proof (children_forward_origin cs x) as E.
    destruct (SpecLib.children_forward k_forward k_save cs x) as [cs' y].
    simpl in *. rewrite E. destruct (last_opt cs); [exact H | discriminate].
Qed.

Lemma final_kind_map_weights (f : params -> params) o :
  SpecLib.final_kind (SpecLib.map_weights f o) = SpecLib.final_kind o.
Proof.
  destruct o as [l|mode saved cs]; simpl; [reflexivity|].
  rewrite last_opt_map. now destruct (last_opt cs).
Qed.

Lemma call_criterion_BCELoss_raises w c co (output target : SpecLib.tensor scalar) :
  SpecLib.criterion_at w c = Some co ->
  SpecLib.ckind co = SpecLib.KBCELoss ->
  SpecLib.origin output <> Some SpecLib.KSigmoid ->
  SpecLib.call_criterion k_loss c output target w
  = (Raise SpecLib.sigmoid_expected, w).
Proof.
  intros Hc Hk Ho.
  unfold SpecLib.call_criterion, SpecLib.get_criterion, SpecLib.get_heap.
  unfold SpecLib.criterion_at in Hc.
  unfold bind at 1 2. rewrite Hc. unfold ret at 1. unfold bind at 1 2.
  rewrite Hk.
  destruct (SpecLib.origin output) as [[| | |]|]; try reflexivity.
  congruence.
Qed.

Lemma zero_grad_run w r oo o :
  SpecLib.optimizer_at w r = Some oo ->
  SpecLib.object_at w (SpecLib.omodel oo) = Some o ->
  SpecLib.zero_grad k_zero_grad r w
  = (Return tt,
     SpecLib.set_object w (SpecLib.omodel oo)
       (SpecLib.map_weights k_zero_grad o)).
Proof.
  intros Hr Ho.
  unfold SpecLib.zero_grad, SpecLib.get_optimizer, SpecLib.get_heap.
  unfold SpecLib.optimizer_at in Hr.
  unfold bind at 1 2. rewrite Hr. unfold ret at 1.
  now rewrite (bind_Return _ _ _ (get_module_at _ _ Ho)).
Qed.

(** The first statements of an epoch, on a model whose last layer is
    not a Sigmoid and a [BCELoss]: the loss raises. *)
Lemma epoch_BCELoss_raises w m c opt oo o k co test_model_fn data e h :
  SpecLib.optimizer_at w opt = Some oo -> SpecLib.omodel oo = m ->
  SpecLib.object_at w m = Some o ->
  SpecLib.final_kind o = Some k -> k <> SpecLib.KSigmoid ->
  SpecLib.criterion_at w c = Some co ->
  SpecLib.ckind co = SpecLib.KBCELoss ->
  exists w',
    @train_and_test_epoch L m c test_model_fn data opt e h w
    = (Raise SpecLib.sigmoid_expected, w').
Proof.
  intros Hopt <- Ho Hk Hne Hc Hck.
  destruct data as [[[input target] test_input] test_target].
  destruct h as [[lh teh] trh].
  unfold train_and_test_epoch. cbn [zero_grad call_module call_criterion L
    SpecLib.framework].
  rewrite (bind_Return _ _ _ (zero_grad_run _ _ Hopt Ho)).
  pose proof (object_at_set_object_eq w (SpecLib.omodel oo)
                (SpecLib.map_weights k_zero_grad o) Ho) as Ho1.
  rewrite (bind_Return _ _ _ (call_module_run _ _ input Ho1)).
  eexists. apply bind_Raise.
  apply call_criterion_BCELoss_raises with co; auto.
  rewrite (module_forward_origin _ input (k:=k)).
  - congruence.
  - now rewrite final_kind_map_weights.
Qed.

Lemma range_pos (n : Z) :
  1 <= n -> range n = 0 :: map Z.of_nat (seq 1 (Z.to_nat n - 1)).
Proof.
  intros H. unfold range.
  replace (Z.to_nat n) with (Datatypes.S (Z.to_nat n - 1)) at 1 by lia.
  reflexivity.
Qed.

Lemma train_and_test_model_BCELoss_raises
    w m c o k co test_model_fn data nb_epochs lr :
  SpecLib.object_at w m = Some o ->
  SpecLib.final_kind o = Some k -> k <> SpecLib.KSigmoid ->
  SpecLib.criterion_at w c = Some co ->
  SpecLib.ckind co = SpecLib.KBCELoss ->
  1 <= nb_epochs ->
  exists w',
    @train_and_test_model L m c test_model_fn data nb_epochs lr w
    = (Raise SpecLib.sigmoid_expected, w').
Proof.
  intros Ho Hk Hne Hc Hck Hn.
  unfold train_and_test_model. rewrite (range_pos Hn).
  cbn [for_in].
  set (w1 := mkWorld false (stdout w ++ [(nl ++ "Working with custom DL")%string])
               (SpecLib.mkStore (SpecLib.modules (heap w))
                  (SpecLib.criteria (heap w))
                  (SpecLib.optimizers (heap w) ++ [SpecLib.mkOpt m lr]))).
  destruct (@epoch_BCELoss_raises w1 m c
              (length (SpecLib.optimizers (heap w))) (SpecLib.mkOpt m lr)
              o k co test_model_fn data 0 ([], [], []))
    as (w' & Hraise); auto.
  { unfold SpecLib.optimizer_at. simpl. apply nth_error_snoc. }
  exists w'.
  change (bind (bind (@train_and_test_epoch L m c test_model_fn data
                        (length (SpecLib.optimizers (heap w))) 0 ([], [], []))
                  (fun h' =>
                     for_in (map Z.of_nat (seq 1 (Z.to_nat nb_epochs - 1)))
                       (@train_and_test_epoch L m c test_model_fn data
                          (length (SpecLib.optimizers (heap w)))) h'))
               (fun h =>
                  let '(loss_history, test_acc_history, train_acc_history) := h in
                  ret (loss_history, train_acc_history, test_acc_history))
               w1 = (Raise SpecLib.sigmoid_expected, w')).
  apply bind_Raise. now apply bind_Raise.
Qed.

Lemma new_criterion_run w (k : SpecLib.loss_kind) :
  SpecLib.new_criterion k w
  = (Return (length (SpecLib.criteria (heap w))),
     mkWorld (grad_enabled w) (stdout w)
       (SpecLib.mkStore (SpecLib.modules (heap w))
          (SpecLib.criteria (heap w) ++ [SpecLib.mkCrit k None])
          (SpecLib.optimizers (heap w)))).
Proof. reflexivity. Qed.

(** C5.  On the output of a model whose final layer is not a Sigmoid,
    the call of a [BCELoss] raises an [AssertionError] and changes nothing;
    and [train_and_test_model] with a [BCELoss] on the model of lines
    256-259, whose last layer is [Linear('fc3', 4, 1)], raises that
    [AssertionError], in every world and on every data. *)
Theorem BCELoss_without_final_Sigmoid_raises :
  (forall w m o k x out w1 c co target,
      SpecLib.object_at w m = Some o ->
      SpecLib.final_kind o = Some k -> k <> SpecLib.KSigmoid ->
      @call_module L m x w = (Return out, w1) ->
      SpecLib.criterion_at w1 c = Some co ->
      SpecLib.ckind co = SpecLib.KBCELoss ->
      @call_criterion L c out target w1
      = (Raise SpecLib.sigmoid_expected, w1)) /\
  (forall w data, exists w',
      (model <- @no_final_sigmoid L ;;
       criterion0 <- @BCELoss L ;;
       @train_and_test_model L model criterion0 (@test_model_bce L) data 301
         (1 # 1000)%Q) w
      = (Raise SpecLib.sigmoid_expected, w')).
Proof.
  split.
  - intros w m o k x out w1 c co target Ho Hk Hne Hcall Hc Hck.
    simpl in *. rewrite (call_module_run _ _ x Ho) in Hcall.
    inversion Hcall; subst. clear Hcall.
    apply call_criterion_BCELoss_raises with co; auto.
    rewrite (module_forward_origin _ x Hk). congruence.
  - intros w data.
    pose (ls := [@SpecLib.fresh_layer scalar params k_init (Some "fc1") (SpecLib.KLinear 2 6);
                 @SpecLib.fresh_layer scalar params k_init None SpecLib.KReLU;
                 @SpecLib.fresh_layer scalar params k_init (Some "fc2") (SpecLib.KLinear 6 4);
                 @SpecLib.fresh_layer scalar params k_init None SpecLib.KTanh;
                 @SpecLib.fresh_layer scalar params k_init (Some "fc3") (SpecLib.KLinear 4 1)]).
    assert (E : @no_final_sigmoid L w
                = SpecLib.Sequential
                    (SpecLib.handles_of (SpecLib.modules (heap w))
                       (map (@SpecLib.Layer _ _) ls))
                    (SpecLib.created w (map (@SpecLib.Layer _ _) ls)))
      by reflexivity.
    rewrite (@Sequential_run _ _ ls (@created_resolves w ls _ eq_refl)) in E.
    change (SpecLib.register [] ls) with (Return (A:=list _) ls) in E.
    lazy iota beta in E. rewrite new_module_run in E.
    rewrite (bind_Return _ _ _ E).
    cbn [BCELoss L SpecLib.framework]. unfold SpecLib.BCELoss.
    rewrite (bind_Return _ _ _ (new_criterion_run _ _)).
    apply train_and_test_model_BCELoss_raises
      with (o := SpecLib.Container true None ls) (k := SpecLib.KLinear 4 1)
           (co := SpecLib.mkCrit SpecLib.KBCELoss None).
    + apply object_at_new.
    + reflexivity.
    + discriminate.
    + unfold SpecLib.criterion_at. simpl. apply nth_error_snoc.
    + reflexivity.
    + lia.
Qed.

End Library.

Lemma eval_forward_keeps_save_for_backward_witness :
  exists o out w',
    SpecLib.object_at Run.evaluated Run.model = Some o /\
    SpecLib.own_saved o <> None /\
    @call_module Run.lib Run.model (snd (fst Run.batch)) Run.evaluated
      = (Return out, w') /\
    exists o',
      SpecLib.object_at w' Run.model = Some o' /\
      SpecLib.saved_state o' = SpecLib.saved_state o.
Proof.
  destruct (SpecLib.object_at Run.evaluated Run.model) as [o|] eqn:Ho;
    [|vm_compute in Ho; discriminate].
  destruct (@call_module Run.lib Run.model (snd (fst Run.batch))
              Run.evaluated) as [[out|e] w'] eqn:E;
    [|vm_compute in E; discriminate].
  exists o, out, w'. split; [reflexivity|]. split; [|split; [reflexivity|]].
  - vm_compute in Ho. inversion Ho. discriminate.
  - eapply eval_forward_keeps_save_for_backward.
    + exact Ho.
    + vm_compute in Ho. inversion Ho. reflexivity.
    + exact E.
Defined.



Lemma backward_before_forward_raises_witness :
  SpecLib.never_forwarded Run.ready Run.model /\
  @module_backward Run.lib Run.model None Run.ready
  = (Raise SpecLib.before_forward, Run.ready).
Proof.
  assert (Hn : SpecLib.never_forwarded Run.ready Run.model)
    by (eexists; split; reflexivity).
  split; [exact Hn|].
  destruct (backward_before_forward_raises Run.k_init Run.k_forward
              Run.k_save Run.k_backward Run.k_zero_grad Run.k_step Run.k_loss
              Run.k_loss Run.k_pure Run.k_pure Run.k_eq Run.k_pure Run.k_pure
              Run.k_div Run.k_str (Return Run.on_disk)) as [H _].
  exact (H Run.ready Run.model None Hn).
Defined.

Lemma BCELoss_without_final_Sigmoid_raises_witness :
  exists out w1,
    @call_module Run.lib 0%nat (fst (fst (fst Run.batch))) Run.ready
    = (Return out, w1) /\
    @call_criterion Run.lib Run.bce out (snd (fst (fst Run.batch))) w1
    = (Raise SpecLib.sigmoid_expected, w1).
Proof.
  destruct (@call_module Run.lib 0%nat (fst (fst (fst Run.batch))) Run.ready)
    as [[out|e] w1] eqn:E; [|vm_compute in E; discriminate].
  exists out, w1. split; [reflexivity|].
  destruct (BCELoss_without_final_Sigmoid_raises Run.k_init Run.k_forward
              Run.k_save Run.k_backward Run.k_zero_grad Run.k_step Run.k_loss
              Run.k_loss Run.k_pure Run.k_pure Run.k_eq Run.k_pure Run.k_pure
              Run.k_div Run.k_str (Return Run.on_disk)) as [H _].
  eapply (H Run.ready 0%nat _ (SpecLib.KLinear 2 1) _ out w1 Run.bce
            (SpecLib.mkCrit SpecLib.KBCELoss None)).
  - reflexivity.
  - reflexivity.
  - discriminate.
  - exact E.
  - vm_compute in E. inversion E. reflexivity.
  - reflexivity.
Defined.

(** * Further properties of the script *)

(** ** [load_mock_test_data]: errors *)

Lemma slicing_narrow_raises (A S : Type)
    (loader : M S (Torch.tensor A * Torch.tensor A *
                   Torch.tensor A * Torch.tensor A))
    (s s' : S) (train_input train_target test_input test_target : Torch.tensor A) :
  loader s = (Return (train_input, train_target, test_input, test_target), s') ->
  too_narrow train_target \/ too_narrow test_target ->
  exists msg, load_mock_test_data loader s = (Raise (IndexError msg), s').
Proof.
  intros Hload Hnarrow. unfold load_mock_test_data.
  rewrite (bind_Return _ _ _ Hload).
  unfold getitem_col1, view_col, Torch.slicing, bind, lift.
  destruct train_target as [v|w rows]; simpl; [eauto|].
  destruct (w <=? 1)%nat eqn:Ew; [eauto|].
  destruct (Torch.column 1 rows) as [c|]; [|eauto]. simpl.
  destruct Hnarrow as [H|H]; [simpl in H; apply Nat.leb_gt in Ew; lia|].
  destruct test_target as [v|w2 rows2]; simpl in *; [eauto|].
  destruct (w2 <=? 1)%nat eqn:Ew2; [eauto|].
  apply Nat.leb_gt in Ew2. lia.
Qed.

Lemma slicing_result_column (A S : Type)
    (loader : M S (Torch.tensor A * Torch.tensor A *
                   Torch.tensor A * Torch.tensor A))
    (s s' : S) (a t1 c t2 : Torch.tensor A) :
  load_mock_test_data loader s = (Return (a, t1, c, t2), s') ->
  (exists col, t1 = Torch.Mat 1 col) /\ (exists col, t2 = Torch.Mat 1 col).
Proof.
  unfold load_mock_test_data. intros H.
  mstep_as H d s1 E. destruct d as [[[a0 tt] c0] vt].
  mstep_as H col1 s2 E1. mstep_as H tt' s3 E2.
  mstep_as H col2 s4 E3. mstep_as H vt' s5 E4.
  apply ret_inv in H. destruct H as [H _]. inversion H; subst.
  apply lift_Return_inv in E2, E4.
  destruct E2 as [E2 _], E4 as [E4 _].
  unfold view_col, Torch.slicing, Torch.view_col, Torch.as_column in E2, E4.
  split.
  - destruct col1; inversion E2; eauto.
  - destruct col2; inversion E4; eauto.
Qed.

(** X1.  When one of the two targets the loader hands over is
    one-dimensional or has fewer than two columns, [load_mock_test_data]
    raises an [IndexError], in the state the loader left; the tensors need
    not be well formed for that. *)
Theorem load_mock_test_data_narrow_target_raises (A S : Type)
    (loader : M S (Torch.tensor A * Torch.tensor A *
                   Torch.tensor A * Torch.tensor A))
    (s s' : S) (train_input train_target test_input test_target : Torch.tensor A) :
  loader s = (Return (train_input, train_target, test_input, test_target), s') ->
  too_narrow train_target \/ too_narrow test_target ->
  exists msg, load_mock_test_data loader s = (Raise (IndexError msg), s').
Proof. apply slicing_narrow_raises. Qed.

Lemma load_mock_test_data_narrow_target_raises_witness :
  exists msg,
    load_mock_test_data Run.narrow tt = (Raise (IndexError msg), tt).
Proof.
  apply (@load_mock_test_data_narrow_target_raises Z unit Run.narrow tt tt
           (Torch.Mat 2 [[1; 2]]) (Torch.Mat 1 [[7]])
           (Torch.Mat 2 [[3; 4]]) (Torch.Mat 1 [[8]])).
  - reflexivity.
  - left. simpl. lia.
Defined.

(** X2.  However [load_mock_test_data] ends, the state is the one the
    loader left.  An error it raises is the loader's own, or the error of
    the first tensor operation that fails, the train target being sliced
    and viewed before the test target; this holds for tensors of any kind.
    On targets of rank one or two the view cannot fail, and the error is
    then the loader's own or an [IndexError]. *)
Theorem load_mock_test_data_errors :
  (forall (S tensor : Type) (slicing : Slicing tensor)
          (loader : M S (tensor * tensor * tensor * tensor)) (s s' : S)
          (r : outcome (tensor * tensor * tensor * tensor)),
      load_mock_test_data loader s = (r, s') ->
      (exists r0, loader s = (r0, s')) /\
      (forall e, r = Raise e ->
         loader s = (Raise e, s') \/
         exists train_input train_target test_input test_target,
           loader s
           = (Return (train_input, train_target, test_input, test_target),
              s') /\
           (getitem_col1 train_target = Raise e \/
            exists col1,
              getitem_col1 train_target = Return col1 /\
              (view_col col1 = Raise e \/
               exists t1,
                 view_col col1 = Return t1 /\
                 (getitem_col1 test_target = Raise e \/
                  exists col2,
                    getitem_col1 test_target = Return col2 /\
                    view_col col2 = Raise e))))) /\
  (forall (A S : Type)
          (loader : M S (Torch.tensor A * Torch.tensor A *
                         Torch.tensor A * Torch.tensor A)) (s s' : S)
          (r : outcome (Torch.tensor A * Torch.tensor A *
                        Torch.tensor A * Torch.tensor A)),
      load_mock_test_data loader s = (r, s') ->
      forall e, r = Raise e -> loader s = (Raise e, s') \/ is_IndexError e).
Proof.
  split.
  - intros S tensor slicing loader s s' r.
    unfold load_mock_test_data, bind, lift, ret.
    destruct (loader s) as [[[[[a tt0] c] vt]|e0] s1] eqn:El.
    + destruct (getitem_col1 tt0) as [col1|e1] eqn:G1.
      * destruct (view_col col1) as [t1|e2] eqn:V1.
        -- destruct (getitem_col1 vt) as [col2|e3] eqn:G2.
           ++ destruct (view_col col2) as [t2|e4] eqn:V2;
                intros H; inversion H; subst; (split; [eauto|]);
                intros e He; inversion He; subst.
              right. exists a, tt0, c, vt. split; [reflexivity|].
              right. exists col1. split; [assumption|].
              right. exists t1. split; [assumption|].
              right. exists col2. split; assumption.
           ++ intros H; inversion H; subst. split; [eauto|].
              intros e He; inversion He; subst.
              right. exists a, tt0, c, vt. split; [reflexivity|].
              right. exists col1. split; [assumption|].
              right. exists t1. split; [assumption|]. now left.
        -- intros H; inversion H; subst. split; [eauto|].
           intros e He; inversion He; subst.
           right. exists a, tt0, c, vt. split; [reflexivity|].
           right. exists col1. split; [assumption|]. now left.
      * intros H; inversion H; subst. split; [eauto|].
        intros e He; inversion He; subst.
        right. exists a, tt0, c, vt. split; [reflexivity|]. now left.
    + intros H; inversion H; subst. split; [eauto|].
      intros e He; inversion He; subst. now left.
  - intros A S loader s s' r.
    unfold load_mock_test_data, bind, is_IndexError.
    destruct (loader s) as [[[[[a tt0] c] vt]|e0] s1] eqn:El.
    + unfold getitem_col1, view_col, Torch.slicing, lift.
      destruct tt0 as [v|w rows]; simpl.
      * intros H; inversion H; subst.
        intros e He; inversion He; eauto.
      * destruct (w <=? 1)%nat.
        -- intros H; inversion H; subst.
           intros e He; inversion He; eauto.
        -- destruct (Torch.column 1 rows); simpl.
           ++ destruct vt as [v2|w2 rows2]; simpl.
              ** intros H; inversion H; subst.
                 intros e He; inversion He; eauto.
              ** destruct (w2 <=? 1)%nat.
                 --- intros H; inversion H; subst.
                     intros e He; inversion He; eauto.
                 --- destruct (Torch.column 1 rows2); simpl;
                       intros H; inversion H; subst;
                       intros e He; inversion He; eauto.
           ++ intros H; inversion H; subst.
              intros e He; inversion He; eauto.
    + intros H; inversion H; subst.
      intros e He; inversion He; subst; eauto.
Qed.

Lemma load_mock_test_data_errors_witness :
  (exists r0, Run.narrow tt = (r0, tt)) /\
  Torch.getitem_col1 (Torch.Mat 1 [[7]])
  = Raise (IndexError "index 1 is out of bounds for dimension 1") /\
  is_IndexError (IndexError "index 1 is out of bounds for dimension 1").
Proof.
  destruct load_mock_test_data_errors as [Hany Hrank].
  destruct (Hany unit (Torch.tensor Z) (Torch.slicing Z) Run.narrow tt tt
              (Raise (IndexError "index 1 is out of bounds for dimension 1"))
              eq_refl) as [H1 H2].
  split; [exact H1|]. split.
  - destruct (H2 _ eq_refl)
      as [H|(a & b & c & d & Hl & [H|(col & H & _)])];
      [discriminate| |];
      vm_compute in Hl; inversion Hl; subst; [exact H|].
    vm_compute in H. discriminate.
  - destruct (Hrank Z unit Run.narrow tt tt
                (Raise (IndexError "index 1 is out of bounds for dimension 1"))
                eq_refl _ eq_refl) as [H|H]; [discriminate | exact H].
Defined.

(** X3.  [load_mock_test_data] cannot be applied to its own result: the
    targets it returns have one column, so slicing them again raises an
    [IndexError]. *)
Theorem load_mock_test_data_not_twice (A S S2 : Type)
    (loader : M S (Torch.tensor A * Torch.tensor A *
                   Torch.tensor A * Torch.tensor A))
    (s s' : S)
    (r : Torch.tensor A * Torch.tensor A * Torch.tensor A * Torch.tensor A)
    (s2 : S2) :
  load_mock_test_data loader s = (Return r, s') ->
  exists msg, load_mock_test_data (ret r) s2 = (Raise (IndexError msg), s2).
Proof.
  destruct r as [[[a t1] c] t2]. intros H.
  destruct (slicing_result_column _ _ H) as [(col & ->) _].
  apply (@slicing_narrow_raises A S2 (ret (a, Torch.Mat 1 col, c, t2)) s2 s2
           a (Torch.Mat 1 col) c t2).
  - reflexivity.
  - left. simpl. lia.
Qed.

Lemma load_mock_test_data_not_twice_witness :
  exists r msg,
    load_mock_test_data Run.wide tt = (Return r, tt) /\
    load_mock_test_data (ret r) tt = (Raise (IndexError msg), tt).
Proof.
  destruct (load_mock_test_data Run.wide tt) as [[r|e] []] eqn:E;
    [|vm_compute in E; discriminate].
  destruct (@load_mock_test_data_not_twice Z unit unit Run.wide tt tt r tt E)
    as (msg & H).
  exists r, msg. split; [reflexivity | exact H].
Defined.

(** ** The training loops: no epoch, a failing epoch *)

Lemma range_nonpos (n : Z) : n <= 0 -> range n = [].
Proof.
  intros H. unfold range. now replace (Z.to_nat n) with 0%nat by lia.
Qed.

Lemma for_in_app {S L} (body : Z -> L -> M S L) (l1 l2 : list Z) :
  forall (h : L) (s : S),
    for_in (l1 ++ l2) body h s
    = bind (for_in l1 body h) (fun h' => for_in l2 body h') s.
Proof.
  induction l1 as [|e l1 IH]; intros h s; [reflexivity|].
  simpl. unfold bind.
  destruct (body e h s) as [[h1|x] s1]; [|reflexivity].
  rewrite IH. reflexivity.
Qed.

Lemma range_split (k n : Z) :
  0 <= k < n ->
  range n = range k ++ k :: map Z.of_nat (seq (Datatypes.S (Z.to_nat k))
                                             (Z.to_nat n - Z.to_nat k - 1)).
Proof.
  intros H. unfold range.
  replace (Z.to_nat n)
    with (Z.to_nat k + Datatypes.S (Z.to_nat n - Z.to_nat k - 1))%nat at 1
    by lia.
  rewrite seq_app, map_app. simpl. f_equal. f_equal. lia.
Qed.

(** The loop stops at the first epoch that raises. *)
Lemma for_in_range_raises {S L} (body : Z -> L -> M S L) (k n : Z)
    (init h : L) (s1 s2 s3 : S) (e : exn) :
  0 <= k < n ->
  for_in (range k) body init s1 = (Return h, s2) ->
  body k h s2 = (Raise e, s3) ->
  for_in (range n) body init s1 = (Raise e, s3).
Proof.
  intros Hk Hprefix Hraise.
  rewrite (range_split Hk), for_in_app.
  rewrite (bind_Return _ _ _ Hprefix). simpl.
  now apply bind_Raise.
Qed.

(** X4.  With [nb_epochs <= 0] the loop of [train_and_test_model] does
    not run: once [SGD(model, lr)] has returned, the function returns
    three empty histories in the state that call left, without a forward
    pass, a loss or a test. *)
Theorem train_and_test_model_no_epoch {F : Framework}
    (model : module) (criterion0 : criterion)
    (test_model_fn : module -> tensor -> tensor -> M (world heap_t) tensor)
    (data : tensor * tensor * tensor * tensor) (nb_epochs : Z) (lr : Q)
    (w w1 : world heap_t) (optimizer0 : optimizer) :
  nb_epochs <= 0 ->
  SGD model lr
    (with_line (mkWorld false (stdout w) (heap w))
       (nl ++ "Working with custom DL")%string)
    = (Return optimizer0, w1) ->
  train_and_test_model model criterion0 test_model_fn data nb_epochs lr w
  = (Return ([], [], []), w1).
Proof.
  intros Hn Hsgd. unfold train_and_test_model.
  rewrite (range_nonpos Hn).
  change (bind (SGD model lr)
            (fun optimizer0 =>
               '(loss_history, test_acc_history, train_acc_history) <-
                 ret (S:=world heap_t) ([] : list tensor, [] : list tensor,
                                        [] : list tensor) ;;
               ret (loss_history, train_acc_history, test_acc_history))
            (with_line (mkWorld false (stdout w) (heap w))
               (nl ++ "Working with custom DL")%string)
          = (Return ([], [], []), w1)).
  now rewrite (bind_Return _ _ _ Hsgd).
Qed.

Lemma train_and_test_model_no_epoch_witness :
  @train_and_test_model (Scripted.lib (Return tt) (Raise (OSError "disk")))
    tt tt (@test_model_bce (Scripted.lib (Return tt) (Raise (OSError "disk"))))
    (tt, tt, tt, tt) (-3) (1 # 100)%Q Scripted.start
  = (Return ([], [], []),
     with_line Scripted.start (nl ++ "Working with custom DL")%string).
Proof.
  apply (@train_and_test_model_no_epoch
           (Scripted.lib (Return tt) (Raise (OSError "disk"))) tt tt
           (@test_model_bce (Scripted.lib (Return tt) (Raise (OSError "disk"))))
           (tt, tt, tt, tt) (-3) (1 # 100)%Q Scripted.start
           (with_line Scripted.start (nl ++ "Working with custom DL")%string)
           tt).
  - lia.
  - reflexivity.
Defined.

(** X5.  [train_and_test_model] stops at the first epoch that raises:
    when the epochs before [k] have returned and epoch [k] raises, the
    function raises the same error in the state that epoch left, and the
    histories gathered so far are lost. *)
Theorem train_and_test_model_failing_epoch {F : Framework}
    (model : module) (criterion0 : criterion)
    (test_model_fn : module -> tensor -> tensor -> M (world heap_t) tensor)
    (data : tensor * tensor * tensor * tensor) (nb_epochs k : Z) (lr : Q)
    (w w1 w2 w3 : world heap_t) (optimizer0 : optimizer)
    (h : histories) (e : exn) :
  0 <= k < nb_epochs ->
  SGD model lr
    (with_line (mkWorld false (stdout w) (heap w))
       (nl ++ "Working with custom DL")%string)
    = (Return optimizer0, w1) ->
  for_in (range k)
    (train_and_test_epoch model criterion0 test_model_fn data optimizer0)
    ([], [], []) w1 = (Return h, w2) ->
  train_and_test_epoch model criterion0 test_model_fn data optimizer0 k h w2
    = (Raise e, w3) ->
  train_and_test_model model criterion0 test_model_fn data nb_epochs lr w
  = (Raise e, w3).
Proof.
  intros Hk Hsgd Hprefix Hraise.
  pose proof (@for_in_range_raises _ _ _ k nb_epochs _ _ _ _ _ _ Hk Hprefix Hraise)
    as Hloop.
  change (train_and_test_model model criterion0 test_model_fn data nb_epochs
            lr w)
    with (bind (SGD model lr)
            (fun optimizer0 =>
               '(loss_history, test_acc_history, train_acc_history) <-
                 for_in (range nb_epochs)
                   (train_and_test_epoch model criterion0 test_model_fn data
                      optimizer0) ([], [], []) ;;
               ret (loss_history, train_acc_history, test_acc_history))
            (with_line (mkWorld false (stdout w) (heap w))
               (nl ++ "Working with custom DL")%string)).
  rewrite (bind_Return _ _ _ Hsgd).
  now apply bind_Raise.
Qed.

Lemma train_and_test_model_failing_epoch_witness :
  @train_and_test_model (Scripted.lib (Return tt) (Raise (OSError "disk")))
    tt tt (@test_model_bce (Scripted.lib (Return tt) (Raise (OSError "disk"))))
    (tt, tt, tt, tt) 301 (1 # 1000)%Q Scripted.start
  = (Raise (OSError "disk"),
     with_line Scripted.start (nl ++ "Working with custom DL")%string).
Proof.
  apply (@train_and_test_model_failing_epoch
           (Scripted.lib (Return tt) (Raise (OSError "disk"))) tt tt
           (@test_model_bce (Scripted.lib (Return tt) (Raise (OSError "disk"))))
           (tt, tt, tt, tt) 301 0 (1 # 1000)%Q Scripted.start
           (with_line Scripted.start (nl ++ "Working with custom DL")%string)
           (with_line Scripted.start (nl ++ "Working with custom DL")%string)
           (with_line Scripted.start (nl ++ "Working with custom DL")%string)
           tt ([], [], []) (OSError "disk")).
  - lia.
  - reflexivity.
  - reflexivity.
  - reflexivity.
Defined.

(** ** What the library calls leave alone, the script leaves alone *)

Lemma preserves_ret {S A X} (f : S -> X) (a : A) : preserves f (ret a).
Proof. intros s r s' H. now inversion H. Qed.

Lemma preserves_lift {S A X} (f : S -> X) (o : outcome A) :
  preserves f (lift o).
Proof. intros s r s' H. now inversion H. Qed.

Lemma preserves_bind {S A B X} (f : S -> X) (c : M S A) (k : A -> M S B) :
  preserves f c -> (forall a, preserves f (k a)) -> preserves f (bind c k).
Proof.
  intros Hc Hk s r s' H. unfold bind in H.
  destruct (c s) as [[a|e] s1] eqn:E.
  - rewrite (Hk a _ _ _ H). exact (Hc _ _ _ E).
  - inversion H; subst. exact (Hc _ _ _ E).
Qed.

Lemma preserves_for_in {S L X} (f : S -> X) (body : Z -> L -> M S L) :
  (forall e h, preserves f (body e h)) ->
  forall l h, preserves f (for_in l body h).
Proof.
  intros Hb l. induction l as [|e l IH]; intros h; simpl.
  - apply preserves_ret.
  - apply preserves_bind; [apply Hb | exact IH].
Qed.

Lemma preserves_print_grad {H} (s : string) :
  preserves (@grad_enabled H) (print s).
Proof. intros w r w' E. now inversion E. Qed.

Lemma bind_Raise_inv {S A B} (c : M S A) (k : A -> M S B) s e s' :
  bind c k s = (Raise e, s') ->
  c s = (Raise e, s') \/
  exists a s1, c s = (Return a, s1) /\ k a s1 = (Raise e, s').
Proof.
  unfold bind. destruct (c s) as [[a|e0] s1]; intros H.
  - right. eauto.
  - left. now inversion H.
Qed.

Section Frames.
Context {F : Framework} {X : Type}.
Variable f : world heap_t -> X.
Hypothesis library : frames f.
Hypothesis printing : forall s, preserves f (print s).

Lemma as_2d_preserves g : preserves f (as_2d g).
Proof. unfold as_2d. destruct (dim g =? 1); [apply preserves_lift | apply preserves_ret]. Qed.

Lemma log_loss_preserves period e loss : preserves f (log_loss period e loss).
Proof.
  unfold log_loss, format_loss. destruct (e mod period =? 0).
  - apply preserves_bind; [|intros; apply printing].
    apply preserves_bind; [apply preserves_lift | intros; apply preserves_ret].
  - apply preserves_ret.
Qed.

Lemma accuracy_preserves p t i : preserves f (accuracy p t i).
Proof.
  unfold accuracy.
  repeat (apply preserves_bind; [apply preserves_lift | intros]).
  apply preserves_lift.
Qed.

(** The testers of the script change nothing the library leaves alone. *)
Lemma test_model_bce_preserves m a b : preserves f (test_model_bce m a b).
Proof.
  unfold test_model_bce.
  apply preserves_bind; [apply (frames_module_eval library) | intros].
  apply preserves_bind; [apply (frames_call_module library) | intros].
  apply preserves_bind; [apply preserves_lift | intros].
  apply preserves_bind; [apply preserves_lift | intros].
  apply preserves_bind; [apply accuracy_preserves | intros].
  apply preserves_bind; [apply (frames_module_train library) | intros].
  apply preserves_ret.
Qed.

Lemma test_model_bceWithLogits_preserves m a b :
  preserves f (test_model_bceWithLogits m a b).
Proof.
  unfold test_model_bceWithLogits.
  apply preserves_bind; [apply (frames_module_eval library) | intros].
  apply preserves_bind; [apply (frames_call_module library) | intros].
  apply preserves_bind; [apply (frames_Sigmoid library) | intros].
  apply preserves_bind; [apply (frames_call_module library) | intros].
  apply preserves_bind; [apply preserves_lift | intros].
  apply preserves_bind; [apply preserves_lift | intros].
  apply preserves_bind; [apply accuracy_preserves | intros].
  apply preserves_bind; [apply (frames_module_train library) | intros].
  apply preserves_ret.
Qed.

Variable test_model_fn : module -> tensor -> tensor -> M (world heap_t) tensor.
Hypothesis tester : forall m a b, preserves f (test_model_fn m a b).

Lemma train_and_test_epoch_preserves model criterion0 data optimizer0 e h :
  preserves f
    (train_and_test_epoch model criterion0 test_model_fn data optimizer0 e h).
Proof.
  destruct data as [[[input target] test_input] test_target].
  destruct h as [[lh teh] trh]. unfold train_and_test_epoch.
  apply preserves_bind; [apply (frames_zero_grad library) | intros].
  apply preserves_bind; [apply (frames_call_module library) | intros].
  apply preserves_bind; [apply (frames_call_criterion library) | intros].
  apply preserves_bind; [apply tester | intros].
  apply preserves_bind; [apply tester | intros].
  apply preserves_bind; [apply (frames_criterion_backward library) | intros].
  apply preserves_bind; [apply as_2d_preserves | intros].
  apply preserves_bind; [apply log_loss_preserves | intros].
  apply preserves_bind; [apply (frames_module_backward library) | intros].
  apply preserves_bind; [apply (frames_step library) | intros].
  apply preserves_ret.
Qed.

Lemma train_and_test_epoch_torch_preserves model criterion0 data optimizer0 e h :
  preserves f
    (train_and_test_epoch_torch model criterion0 test_model_fn data
       optimizer0 e h).
Proof.
  destruct data as [[[input target] test_input] test_target].
  destruct h as [[lh teh] trh]. unfold train_and_test_epoch_torch.
  apply preserves_bind; [apply (frames_zero_grad library) | intros].
  apply preserves_bind; [apply (frames_call_module library) | intros].
  apply preserves_bind; [apply preserves_lift | intros].
  apply preserves_bind; [apply (frames_call_criterion library) | intros].
  apply preserves_bind; [apply tester | intros].
  apply preserves_bind; [apply tester | intros].
  apply preserves_bind; [apply log_loss_preserves | intros].
  apply preserves_bind; [apply (frames_tensor_backward library) | intros].
  apply preserves_bind; [apply (frames_step0 library) | intros].
  apply preserves_ret.
Qed.
End Frames.

Lemma Scripted_frames {X} (built guarded : outcome unit)
    (f : world unit -> X) :
  @frames (Scripted.lib built guarded) X f.
Proof.
  constructor; intros; intros s r s' H; simpl in H;
    unfold ret, lift in H; now inversion H.
Qed.

(** X6.  With a library and a tester that leave the gradient switch
    alone, [train_and_test_model] ends with gradient tracking disabled
    however it ends, by a return or by an error of any epoch: it disables
    it first (line 112) and nothing after that enables it. *)
Theorem train_and_test_model_leaves_grad_disabled {F : Framework}
    (model : module) (criterion0 : criterion)
    (test_model_fn : module -> tensor -> tensor -> M (world heap_t) tensor)
    (data : tensor * tensor * tensor * tensor) (nb_epochs : Z) (lr : Q)
    (w w' : world heap_t)
    (r : outcome (list tensor * list tensor * list tensor)) :
  frames (@grad_enabled heap_t) ->
  (forall m a b, preserves (@grad_enabled heap_t) (test_model_fn m a b)) ->
  train_and_test_model model criterion0 test_model_fn data nb_epochs lr w
    = (r, w') ->
  grad_enabled w' = false.
Proof.
  intros Hlib Hfn H.
  change (train_and_test_model model criterion0 test_model_fn data nb_epochs
            lr w)
    with ((print (nl ++ "Working with custom DL")%string ;;
           optimizer0 <- SGD model lr ;;
           '(loss_history, test_acc_history, train_acc_history) <-
             for_in (range nb_epochs)
               (train_and_test_epoch model criterion0 test_model_fn data
                  optimizer0) ([], [], []) ;;
           ret (loss_history, train_acc_history, test_acc_history))
            (mkWorld false (stdout w) (heap w))) in H.
  remember (mkWorld false (stdout w) (heap w)) as w0 eqn:Ew0.
  assert (P : preserves (@grad_enabled heap_t)
                (print (nl ++ "Working with custom DL")%string ;;
                 optimizer0 <- SGD model lr ;;
                 '(loss_history, test_acc_history, train_acc_history) <-
                   for_in (range nb_epochs)
                     (train_and_test_epoch model criterion0 test_model_fn data
                        optimizer0) ([], [], []) ;;
                 ret (loss_history, train_acc_history, test_acc_history))).
  { apply preserves_bind; [apply preserves_print_grad | intros].
    apply preserves_bind; [apply (frames_SGD Hlib) | intros].
    apply preserves_bind; [|intros [[? ?] ?]; apply preserves_ret].
    apply preserves_for_in. intros.
    apply train_and_test_epoch_preserves; auto.
    intros; apply preserves_print_grad. }
  apply P in H. rewrite H, Ew0. reflexivity.
Qed.

Lemma train_and_test_model_leaves_grad_disabled_witness :
  exists w',
    @train_and_test_model (Scripted.lib (Return tt) (Raise (OSError "disk")))
      tt tt
      (@test_model_bce (Scripted.lib (Return tt) (Raise (OSError "disk"))))
      (tt, tt, tt, tt) 301 (1 # 1000)%Q (mkWorld true [] tt)
    = (Raise (OSError "disk"), w') /\
    grad_enabled w' = false.
Proof.
  eexists. split; [vm_compute; reflexivity|].
  apply (@train_and_test_model_leaves_grad_disabled
           (Scripted.lib (Return tt) (Raise (OSError "disk"))) tt tt
           (@test_model_bce (Scripted.lib (Return tt) (Raise (OSError "disk"))))
           (tt, tt, tt, tt) 301 (1 # 1000)%Q (mkWorld true [] tt) _
           (Raise (OSError "disk"))).
  - apply Scripted_frames.
  - intros m a b. apply test_model_bce_preserves. apply Scripted_frames.
  - vm_compute. reflexivity.
Defined.

(** X7.  [train_and_test_model_torch] has no cleanup: with a library and
    a tester that leave the gradient switch alone, an error raised by the
    reference framework anywhere in the function leaves gradient tracking
    enabled. *)
Theorem train_and_test_model_torch_error_leaves_grad_enabled {F : Framework}
    (model : module) (criterion0 : criterion)
    (test_model_fn : module -> tensor -> tensor -> M (world heap_t) tensor)
    (data : tensor * tensor * tensor * tensor) (nb_epochs : Z) (lr : Q)
    (w w' : world heap_t) (e : exn) :
  frames (@grad_enabled heap_t) ->
  (forall m a b, preserves (@grad_enabled heap_t) (test_model_fn m a b)) ->
  train_and_test_model_torch model criterion0 test_model_fn data nb_epochs
    lr w = (Raise e, w') ->
  grad_enabled w' = true.
Proof.
  intros Hlib Hfn H.
  change (train_and_test_model_torch model criterion0 test_model_fn data
            nb_epochs lr w)
    with ((print (nl ++ "Working with PyTorch")%string ;;
           ps <- parameters model ;;
           optimizer0 <- torch_optim_SGD ps lr ;;
           '(loss_history, test_acc_history, train_acc_history) <-
             for_in (range nb_epochs)
               (train_and_test_epoch_torch model criterion0 test_model_fn
                  data optimizer0) ([], [], []) ;;
           set_grad_enabled false ;;
           ret (loss_history, train_acc_history, test_acc_history))
            (mkWorld true (stdout w) (heap w))) in H.
  remember (mkWorld true (stdout w) (heap w)) as w0 eqn:Ew0.
  assert (G0 : grad_enabled w0 = true) by (subst w0; reflexivity).
  clear Ew0.
  apply bind_Raise_inv in H. destruct H as [H|(u & w1 & E & H)].
  { apply preserves_print_grad in H. congruence. }
  apply preserves_print_grad in E.
  apply bind_Raise_inv in H. destruct H as [H|(ps & w2 & E2 & H)].
  { apply (frames_parameters Hlib) in H. congruence. }
  apply (frames_parameters Hlib) in E2.
  apply bind_Raise_inv in H. destruct H as [H|(optimizer0 & w3 & E3 & H)].
  { apply (frames_torch_optim_SGD Hlib) in H. congruence. }
  apply (frames_torch_optim_SGD Hlib) in E3.
  assert (P : forall h,
             preserves (@grad_enabled heap_t)
               (for_in (range nb_epochs)
                  (train_and_test_epoch_torch model criterion0 test_model_fn
                     data optimizer0) h)).
  { apply preserves_for_in. intros.
    apply train_and_test_epoch_torch_preserves; auto.
    intros; apply preserves_print_grad. }
  apply bind_Raise_inv in H. destruct H as [H|(h & w4 & E4 & H)].
  { apply P in H. congruence. }
  destruct h as [[lh teh] trh]. discriminate H.
Qed.

Lemma train_and_test_model_torch_error_leaves_grad_enabled_witness :
  exists w',
    @train_and_test_model_torch
      (Scripted.lib (Return tt) (Raise (OSError "disk"))) tt tt
      (@test_model_bceWithLogits
         (Scripted.lib (Return tt) (Raise (OSError "disk"))))
      (tt, tt, tt, tt) 300 (1 # 100)%Q Scripted.start
    = (Raise (OSError "disk"), w') /\
    grad_enabled w' = true.
Proof.
  eexists. split; [vm_compute; reflexivity|].
  apply (@train_and_test_model_torch_error_leaves_grad_enabled
           (Scripted.lib (Return tt) (Raise (OSError "disk"))) tt tt
           (@test_model_bceWithLogits
              (Scripted.lib (Return tt) (Raise (OSError "disk"))))
           (tt, tt, tt, tt) 300 (1 # 100)%Q Scripted.start _
           (OSError "disk")).
  - apply Scripted_frames.
  - intros m a b. apply test_model_bceWithLogits_preserves.
    apply Scripted_frames.
  - vm_compute. reflexivity.
Defined.

(** ** The negative tests: what [try] does not cover *)

(** X8.  In the tests of lines 242-250 and 253-266 the model, the loss
    and the data are built before [try]: an error raised there, an
    [AssertionError] included, is not caught and ends the test, in the
    state the failing call left. *)
Theorem setup_errors_are_not_caught {F : Framework}
    (w : world heap_t) (e : exn) :
  (forall w0,
      Linear "fc1" 2 3
        (announced w rule
           "Testing assertion error when calling backward before any forward pass")
        = (Raise e, w0) ->
      test_assertion_error_when_calling_backward_first w = (Raise e, w0)) /\
  (forall w0,
      no_final_sigmoid
        (announced w rule
           "Testing assertion error when using BCELoss without final sigmoid layer.")
        = (Raise e, w0) ->
      test_assertion_error_without_sigmoid_before_BCELoss w = (Raise e, w0)) /\
  (forall model wa w0,
      no_final_sigmoid
        (announced w rule
           "Testing assertion error when using BCELoss without final sigmoid layer.")
        = (Return model, wa) ->
      BCELoss wa = (Raise e, w0) ->
      test_assertion_error_without_sigmoid_before_BCELoss w = (Raise e, w0)) /\
  (forall model criterion0 wa wb w0,
      no_final_sigmoid
        (announced w rule
           "Testing assertion error when using BCELoss without final sigmoid layer.")
        = (Return model, wa) ->
      BCELoss wa = (Return criterion0, wb) ->
      load_mock_test_data load_data_p2 wb = (Raise e, w0) ->
      test_assertion_error_without_sigmoid_before_BCELoss w = (Raise e, w0)).
Proof.
  repeat split.
  - intros w0 H.
    change (test_assertion_error_when_calling_backward_first w)
      with (bind (Linear "fc1" 2 3)
                 (fun model =>
                    try_except_AssertionError
                      (_ <- module_backward model None ;; print uncorrect)
                      (fun error => print error))
                 (announced w rule
                    "Testing assertion error when calling backward before any forward pass")).
    now apply bind_Raise.
  - intros w0 H.
    change (test_assertion_error_without_sigmoid_before_BCELoss w)
      with (bind no_final_sigmoid
                 (fun model =>
                    criterion0 <- BCELoss ;;
                    data <- load_mock_test_data load_data_p2 ;;
                    try_except_AssertionError
                      (_ <- train_and_test_model model criterion0
                              test_model_bce data 301 (1 # 1000)%Q ;;
                       print uncorrect)
                      (fun error => print error))
                 (announced w rule
                    "Testing assertion error when using BCELoss without final sigmoid layer.")).
    now apply bind_Raise.
  - intros model wa w0 Hm H.
    change (test_assertion_error_without_sigmoid_before_BCELoss w)
      with (bind no_final_sigmoid
                 (fun model =>
                    criterion0 <- BCELoss ;;
                    data <- load_mock_test_data load_data_p2 ;;
                    try_except_AssertionError
                      (_ <- train_and_test_model model criterion0
                              test_model_bce data 301 (1 # 1000)%Q ;;
                       print uncorrect)
                      (fun error => print error))
                 (announced w rule
                    "Testing assertion error when using BCELoss without final sigmoid layer.")).
    rewrite (bind_Return _ _ _ Hm). now apply bind_Raise.
  - intros model criterion0 wa wb w0 Hm Hc H.
    change (test_assertion_error_without_sigmoid_before_BCELoss w)
      with (bind no_final_sigmoid
                 (fun model =>
                    criterion0 <- BCELoss ;;
                    data <- load_mock_test_data load_data_p2 ;;
                    try_except_AssertionError
                      (_ <- train_and_test_model model criterion0
                              test_model_bce data 301 (1 # 1000)%Q ;;
                       print uncorrect)
                      (fun error => print error))
                 (announced w rule
                    "Testing assertion error when using BCELoss without final sigmoid layer.")).
    rewrite (bind_Return _ _ _ Hm), (bind_Return _ _ _ Hc).
    now apply bind_Raise.
Qed.

Lemma setup_errors_are_not_caught_witness :
  @test_assertion_error_without_sigmoid_before_BCELoss
    (Scripted.lib (Raise (AssertionError "boom")) (Return tt)) Scripted.start
  = (Raise (AssertionError "boom"),
     announced Scripted.start rule
       "Testing assertion error when using BCELoss without final sigmoid layer.").
Proof.
  destruct (@setup_errors_are_not_caught
              (Scripted.lib (Raise (AssertionError "boom")) (Return tt))
              Scripted.start (AssertionError "boom")) as (_ & H & _).
  apply H. reflexivity.
Defined.

(** ** The testers: a failure between [eval()] and [train()] *)

Lemma lift_state {S A} (o : outcome A) (s s' : S) (r : outcome A) :
  lift o s = (r, s') -> s' = s.
Proof. intros H. now inversion H. Qed.

(** X9.  The testers do not restore the mode when they fail: given that
    [eval()] puts the model in evaluation mode and that neither a forward
    pass nor the construction of a [Sigmoid] takes it out of that mode,
    when [test_model_bce] or [test_model_bceWithLogits] raises, either
    [eval()] or [train()] itself raised, or the model is left in
    evaluation mode. *)
Theorem failed_tester_leaves_evaluation_mode {F : Framework}
    (in_eval : module -> world heap_t -> bool)
    (model : module) (test_input test_target : tensor)
    (w w' : world heap_t) (e : exn) :
  (forall w0 u w1,
      module_eval model w0 = (Return u, w1) -> in_eval model w1 = true) ->
  (forall m y, preserves (in_eval model) (call_module m y)) ->
  (forall given, preserves (in_eval model) (Sigmoid given)) ->
  test_model_bce model test_input test_target w = (Raise e, w') \/
  test_model_bceWithLogits model test_input test_target w = (Raise e, w') ->
  module_eval model w = (Raise e, w') \/
  (exists w3, module_train model w3 = (Raise e, w')) \/
  in_eval model w' = true.
Proof.
  intros Heval Hcall Hsig [H|H].
  - unfold test_model_bce in H.
    apply bind_Raise_inv in H. destruct H as [H|(u & w1 & E1 & H)]; [auto|].
    apply Heval in E1.
    apply bind_Raise_inv in H. destruct H as [H|(out & w2 & E2 & H)].
    { apply Hcall in H. right; right. congruence. }
    apply Hcall in E2.
    apply bind_Raise_inv in H. destruct H as [H|(p & w3 & E3 & H)].
    { apply lift_state in H. right; right. congruence. }
    apply lift_state in E3. subst w3.
    apply bind_Raise_inv in H. destruct H as [H|(q & w4 & E4 & H)].
    { apply lift_state in H. right; right. congruence. }
    apply lift_state in E4. subst w4.
    apply bind_Raise_inv in H. destruct H as [H|(a & w5 & E5 & H)].
    { apply (accuracy_preserves (in_eval model)) in H. right; right.
      congruence. }
    apply bind_Raise_inv in H. destruct H as [H|(u2 & w6 & E6 & H)].
    { right; left. eauto. }
    discriminate H.
  - unfold test_model_bceWithLogits in H.
    apply bind_Raise_inv in H. destruct H as [H|(u & w1 & E1 & H)]; [auto|].
    apply Heval in E1.
    apply bind_Raise_inv in H. destruct H as [H|(out & w2 & E2 & H)].
    { apply Hcall in H. right; right. congruence. }
    apply Hcall in E2.
    apply bind_Raise_inv in H. destruct H as [H|(sg & w2' & E2' & H)].
    { apply Hsig in H. right; right. congruence. }
    apply Hsig in E2'.
    apply bind_Raise_inv in H. destruct H as [H|(probs & w2'' & E2'' & H)].
    { apply Hcall in H. right; right. congruence. }
    apply Hcall in E2''.
    apply bind_Raise_inv in H. destruct H as [H|(p & w3 & E3 & H)].
    { apply lift_state in H. right; right. congruence. }
    apply lift_state in E3. subst w3.
    apply bind_Raise_inv in H. destruct H as [H|(q & w4 & E4 & H)].
    { apply lift_state in H. right; right. congruence. }
    apply lift_state in E4. subst w4.
    apply bind_Raise_inv in H. destruct H as [H|(a & w5 & E5 & H)].
    { apply (accuracy_preserves (in_eval model)) in H. right; right.
      congruence. }
    apply bind_Raise_inv in H. destruct H as [H|(u2 & w6 & E6 & H)].
    { right; left. eauto. }
    discriminate H.
Qed.

Lemma failed_tester_leaves_evaluation_mode_witness :
  exists w',
    @test_model_bce (Moded.lib (Raise (RuntimeError "shape"))) tt tt tt
      Moded.start = (Raise (RuntimeError "shape"), w') /\
    Moded.in_eval tt Moded.start = false /\
    Moded.in_eval tt w' = true.
Proof.
  eexists. split; [vm_compute; reflexivity|]. split; [reflexivity|].
  destruct (@failed_tester_leaves_evaluation_mode
              (Moded.lib (Raise (RuntimeError "shape"))) Moded.in_eval
              tt tt tt Moded.start (mkWorld false [] false)
              (RuntimeError "shape")) as [H|[(w3 & H)|H]].
  - intros w0 u w1 H. inversion H. reflexivity.
  - intros m y s r s' H. inversion H. reflexivity.
  - intros g s r s' H. inversion H. reflexivity.
  - left. vm_compute. reflexivity.
  - discriminate H.
  - discriminate H.
  - exact H.
Defined.

(** ** What [train_and_test_model] prints *)

Lemma logged_app period l1 l2 lines1 lines2 :
  logged period l1 lines1 -> logged period l2 lines2 ->
  logged period (l1 ++ l2) (lines1 ++ lines2).
Proof.
  unfold logged. intros H1 H2. rewrite filter_app.
  now apply Forall2_app.
Qed.

Lemma log_loss_stdout {F : Framework} period e loss (w w' : world heap_t) u :
  log_loss period e loss w = (Return u, w') ->
  exists lines, stdout w' = stdout w ++ lines /\ logged period [e] lines.
Proof.
  unfold log_loss, logged. simpl. destruct (e mod period =? 0).
  - unfold format_loss. intros H.
    mstep_as H line w1 E. mstep_as E r w2 E1. apply lift_Return_inv in E1.
    destruct E1 as [_ ->]. apply ret_inv in E. destruct E as [-> ->].
    inversion H; subst. exists [("e = " ++ str_of_Z e ++ ", loss = " ++ r)%string].
    split; [reflexivity|]. repeat constructor. now exists r.
  - intros H. apply ret_inv in H. destruct H as [_ ->].
    exists []. split; [now rewrite app_nil_r | constructor].
Qed.

Section Console.
Context {F : Framework}.
Hypothesis library : frames (@stdout heap_t).
Variable test_model_fn : module -> tensor -> tensor -> M (world heap_t) tensor.
Hypothesis tester : forall m a b, preserves (@stdout heap_t) (test_model_fn m a b).

Lemma train_and_test_epoch_stdout model criterion0 data optimizer0 e h w h' w' :
  train_and_test_epoch model criterion0 test_model_fn data optimizer0 e h w
    = (Return h', w') ->
  exists lines, stdout w' = stdout w ++ lines /\ logged 50 [e] lines.
Proof.
  destruct data as [[[input target] test_input] test_target].
  destruct h as [[lh teh] trh]. unfold train_and_test_epoch. intros H.
  mstep_as H u1 w1 E1. apply (frames_zero_grad library) in E1.
  mstep_as H out w2 E2. apply (frames_call_module library) in E2.
  mstep_as H loss w3 E3. apply (frames_call_criterion library) in E3.
  mstep_as H te w4 E4. apply tester in E4.
  mstep_as H tr w5 E5. apply tester in E5.
  mstep_as H g w6 E6. apply (frames_criterion_backward library) in E6.
  mstep_as H g2 w7 E7.
  assert (E7' : stdout w7 = stdout w6).
  { unfold as_2d in E7. destruct (dim g =? 1).
    - apply lift_state in E7. now subst.
    - apply ret_inv in E7. destruct E7 as [_ ->]. reflexivity. }
  mstep_as H u2 w8 E8. apply log_loss_stdout in E8.
  destruct E8 as (lines & E8 & Hlines).
  mstep_as H u3 w9 E9. apply (frames_module_backward library) in E9.
  mstep_as H u4 w10 E10. apply (frames_step library) in E10.
  apply ret_inv in H. destruct H as [_ ->].
  exists lines. split; [|exact Hlines]. congruence.
Qed.

Lemma for_in_stdout model criterion0 data optimizer0 (l : list Z) :
  forall h w h' w',
    for_in l
      (train_and_test_epoch model criterion0 test_model_fn data optimizer0)
      h w = (Return h', w') ->
    exists lines, stdout w' = stdout w ++ lines /\ logged 50 l lines.
Proof.
  induction l as [|e l IH]; intros h w h' w' H; simpl in H.
  - apply ret_inv in H. destruct H as [_ ->].
    exists []. split; [now rewrite app_nil_r | constructor].
  - mstep_as H h1 w1 E.
    apply train_and_test_epoch_stdout in E. destruct E as (l1 & E & H1).
    apply IH in H. destruct H as (l2 & H & H2).
    exists (l1 ++ l2). split.
    + now rewrite H, E, app_assoc.
    + exact (logged_app H1 H2).
Qed.

(** X10.  With a library and a tester that print nothing, a run of
    [train_and_test_model] that returns has added to the console the line
    "Working with custom DL" and then exactly one loss line "e = ...,
    loss = ..." for each epoch of [range(nb_epochs)] that is a multiple
    of 50, in the order of the epochs. *)
Theorem train_and_test_model_console
    (model : module) (criterion0 : criterion)
    (data : tensor * tensor * tensor * tensor) (nb_epochs : Z) (lr : Q)
    (w w' : world heap_t) (r : list tensor * list tensor * list tensor) :
  train_and_test_model model criterion0 test_model_fn data nb_epochs lr w
    = (Return r, w') ->
  exists lines,
    stdout w'
    = stdout w ++ (nl ++ "Working with custom DL")%string :: lines /\
    logged 50 (range nb_epochs) lines.
Proof.
  unfold train_and_test_model. intros H.
  mstep_as H u1 w1 E1. inversion E1; subst. clear E1.
  mstep_as H u2 w2 E2. inversion E2; subst. clear E2.
  mstep_as H optimizer0 w3 E3. apply (frames_SGD library) in E3.
  mstep_as H h w4 E4. destruct h as [[lh teh] trh].
  apply ret_inv in H. destruct H as [_ ->].
  apply for_in_stdout in E4. destruct E4 as (lines & E4 & Hlines).
  exists lines. split; [|exact Hlines].
  rewrite E4, E3. simpl. now rewrite <- app_assoc.
Qed.
End Console.

Lemma train_and_test_model_console_witness :
  exists r w' lines,
    @train_and_test_model (Scripted.lib (Return tt) (Return tt)) tt tt
      (@test_model_bce (Scripted.lib (Return tt) (Return tt)))
      (tt, tt, tt, tt) 120 (1 # 1000)%Q Scripted.start = (Return r, w') /\
    stdout w' = (nl ++ "Working with custom DL")%string :: lines /\
    length lines = 3%nat.
Proof.
  destruct (@train_and_test_model (Scripted.lib (Return tt) (Return tt)) tt tt
              (@test_model_bce (Scripted.lib (Return tt) (Return tt)))
              (tt, tt, tt, tt) 120 (1 # 1000)%Q Scripted.start)
    as [[r|e] w'] eqn:E; [|vm_compute in E; discriminate].
  destruct (@train_and_test_model_console
              (Scripted.lib (Return tt) (Return tt))
              (Scripted_frames _ _ _)
              (@test_model_bce (Scripted.lib (Return tt) (Return tt)))
              (fun m a b =>
                 test_model_bce_preserves (Scripted_frames _ _ _) m a b)
              tt tt (tt, tt, tt, tt) 120 (1 # 1000)%Q Scripted.start w' r E)
    as (lines & Hout & Hlines).
  exists r, w', lines. split; [reflexivity|]. split; [exact Hout|].
  unfold logged in Hlines. apply Forall2_length in Hlines.
  rewrite <- Hlines. vm_compute. reflexivity.
Defined.
